(** * Asset manager of DAKOSYS: collections sync, overlay files, asset copies

    A shallow embedding of [src/asset_manager.py], and what its
    specification says about it.

    - Python [str] values are Rocq strings (the UTF-8 bytes); the string
      methods the module calls ([lower], [split], [replace], [in]) and the
      [os.path] functions ([join], [dirname]) are written out in [PyStr].
    - Parsed YAML is the type [yaml]; the dynamic operations the module
      applies to it ([.get], [.items()], [in], [[...]], [.copy()], [set(...)])
      are in [Py] and raise what Python raises on a value of the wrong shape.
      The configuration and the remote answer are typed records.
    - Effects are threaded through the monad [M]: a [world] holds the
      directories and files on disk, the trace of file writes, the log (both
      loggers of the module write to it) and the console; a computation ends
      in [Ret v] or in [Raise e], the exception that leaves the function.
    - The collaborators are the fields of [env]: the token of
      [trakt_auth.ensure_trakt_auth], the answer of [requests.get], and
      whether a directory can be made and a file read or written.
    - Paths are compared as strings; [os.makedirs] is recorded for the
      directory it is called on. A file holds either the document that
      [yaml.safe_load] reads from it, or bytes that do not parse. *)

From Stdlib Require Import ZArith String Ascii List Bool Lia.
From stdpp Require Import base gmap strings list pretty.

Set Warnings "-register-all".
Local Open Scope Z_scope.

(* ===================================================================== *)
(** ** Python strings and paths *)
(* ===================================================================== *)

Module PyStr.

Definition is_upper (c : ascii) : bool :=
  let n := nat_of_ascii c in (Nat.leb 65 n) && (Nat.leb n 90).

Definition lower_char (c : ascii) : ascii :=
  if is_upper c then ascii_of_nat (nat_of_ascii c + 32) else c.

(** [s.lower()] *)
Fixpoint lower (s : string) : string :=
  match s with
  | EmptyString => EmptyString
  | String c r => String (lower_char c) (lower r)
  end.

(** [c in s] for a one-character string [c] *)
Fixpoint contains_char (c : ascii) (s : string) : bool :=
  match s with
  | EmptyString => false
  | String d r => Ascii.eqb d c || contains_char c r
  end.

Fixpoint split_once (sep : ascii) (s : string) : option (string * string) :=
  match s with
  | EmptyString => None
  | String c r =>
      if Ascii.eqb c sep then Some (EmptyString, r)
      else match split_once sep r with
           | Some (a, b) => Some (String c a, b)
           | None => None
           end
  end.

(** [s.split(sep, 1)] *)
Definition split1 (sep : ascii) (s : string) : list string :=
  match split_once sep s with
  | Some (a, b) => [a; b]
  | None => [s]
  end.

(** [needle in s] for strings *)
Fixpoint contains (needle s : string) : bool :=
  String.prefix needle s ||
  match s with
  | EmptyString => false
  | String _ r => contains needle r
  end.

(** [s.replace(old, new)] for a non-empty [old]: occurrences are replaced
    from the left and do not overlap; [skip] counts the characters of an
    occurrence that is being replaced and are still to be dropped. *)
Fixpoint replace_go (old new : string) (skip : nat) (s : string) : string :=
  match s with
  | EmptyString => EmptyString
  | String c r =>
      match skip with
      | S k => replace_go old new k r
      | O =>
          if String.prefix old s
          then new +:+ replace_go old new (String.length old - 1) r
          else String c (replace_go old new O r)
      end
  end.

Definition replace (old new s : string) : string := replace_go old new O s.

Definition starts_with_slash (s : string) : bool :=
  match s with
  | String c _ => Ascii.eqb c "/"
  | EmptyString => false
  end.

Fixpoint ends_with_slash (s : string) : bool :=
  match s with
  | EmptyString => false
  | String c EmptyString => Ascii.eqb c "/"
  | String _ r => ends_with_slash r
  end.

(** [posixpath.join(a, b)] *)
Definition join (a b : string) : string :=
  if starts_with_slash b then b
  else if String.eqb a "" || ends_with_slash a then a +:+ b
  else a +:+ "/" +:+ b.

(** [p[:p.rfind('/') + 1]] *)
Fixpoint upto_last_slash (p : string) : string :=
  match p with
  | EmptyString => EmptyString
  | String c r =>
      if contains_char "/" r then String c (upto_last_slash r)
      else if Ascii.eqb c "/" then "/" else ""
  end.

Fixpoint all_slashes (s : string) : bool :=
  match s with
  | EmptyString => true
  | String c r => Ascii.eqb c "/" && all_slashes r
  end.

(** [s.rstrip('/')] *)
Fixpoint rstrip_slash (s : string) : string :=
  match s with
  | EmptyString => EmptyString
  | String c r =>
      let r' := rstrip_slash r in
      if Ascii.eqb c "/" && String.eqb r' "" then "" else String c r'
  end.

(** [posixpath.dirname(p)] *)
Definition dirname (p : string) : string :=
  let head := upto_last_slash p in
  if negb (String.eqb head "") && negb (all_slashes head)
  then rstrip_slash head
  else head.

(** the characters of a string, as iterating over it yields them *)
Fixpoint chars (s : string) : list string :=
  match s with
  | EmptyString => []
  | String c r => String c EmptyString :: chars r
  end.

End PyStr.

(* ===================================================================== *)
(** ** Exceptions and results *)
(* ===================================================================== *)

Inductive exn : Type :=
| AttributeError
| TypeError
| KeyError
| OSError
| YAMLError
| ConnectionError
| JSONDecodeError
| AuthError.

Inductive result (A : Type) : Type :=
| Ret (a : A)
| Raise (e : exn).

Arguments Ret {A} a.
Arguments Raise {A} e.

Definition rbind {A B : Type} (r : result A) (k : A -> result B) : result B :=
  match r with
  | Ret a => k a
  | Raise e => Raise e
  end.

Notation "'let?' x := r 'in' k" := (rbind r (fun x => k))
  (at level 10, x name, r at level 100, k at level 200, only parsing).

(** [str(e)], kept as the name of the exception class *)
Definition exn_str (e : exn) : string :=
  match e with
  | AttributeError => "AttributeError"
  | TypeError => "TypeError"
  | KeyError => "KeyError"
  | OSError => "OSError"
  | YAMLError => "YAMLError"
  | ConnectionError => "ConnectionError"
  | JSONDecodeError => "JSONDecodeError"
  | AuthError => "AuthError"
  end.

(* ===================================================================== *)
(** ** Python dicts (insertion ordered) and parsed YAML *)
(* ===================================================================== *)

Section Dict.
Context {V : Type}.

Fixpoint dict_get (d : list (string * V)) (k : string) : option V :=
  match d with
  | [] => None
  | (k', v) :: r => if decide (k' = k) then Some v else dict_get r k
  end.

(** [d[k] = v]: the value is replaced in place, a new key goes last *)
Fixpoint dict_set (d : list (string * V)) (k : string) (v : V)
  : list (string * V) :=
  match d with
  | [] => [(k, v)]
  | (k', v') :: r =>
      if decide (k' = k) then (k', v) :: r else (k', v') :: dict_set r k v
  end.

Definition dict_has (d : list (string * V)) (k : string) : bool :=
  match dict_get d k with Some _ => true | None => false end.

Definition dict_keys (d : list (string * V)) : list string := map fst d.
End Dict.

(** What [yaml.safe_load] returns (floats, timestamps, sets and binary
    scalars are left out; mapping keys are strings). *)
Inductive yaml : Type :=
| YNull
| YBool (b : bool)
| YInt (n : Z)
| YStr (s : string)
| YSeq (items : list yaml)
| YMap (entries : list (string * yaml)).

Module Py.

(** truth value of a loaded document, as [x or default] and [if x] test it *)
Definition truthy (v : yaml) : bool :=
  match v with
  | YNull => false
  | YBool b => b
  | YInt n => negb (n =? 0)
  | YStr s => negb (String.eqb s "")
  | YSeq l => match l with [] => false | _ => true end
  | YMap m => match m with [] => false | _ => true end
  end.

(** [v.get(k, default)] *)
Definition get (v : yaml) (k : string) (default : yaml) : result yaml :=
  match v with
  | YMap m => Ret (match dict_get m k with Some x => x | None => default end)
  | _ => Raise AttributeError
  end.

(** [v.items()] *)
Definition items (v : yaml) : result (list (string * yaml)) :=
  match v with
  | YMap m => Ret m
  | _ => Raise AttributeError
  end.

Definition is_str (s : string) (v : yaml) : bool :=
  match v with
  | YStr t => bool_decide (t = s)
  | _ => false
  end.

(** [k in v] for a string [k] *)
Definition contains (k : string) (v : yaml) : result bool :=
  match v with
  | YMap m => Ret (dict_has m k)
  | YSeq l => Ret (existsb (is_str k) l)
  | YStr s => Ret (PyStr.contains k s)
  | _ => Raise TypeError
  end.

(** [v[k]] for a string [k] *)
Definition getitem (v : yaml) (k : string) : result yaml :=
  match v with
  | YMap m => match dict_get m k with Some x => Ret x | None => Raise KeyError end
  | _ => Raise TypeError
  end.

(** [v.copy()] *)
Definition copy (v : yaml) : result yaml :=
  match v with
  | YMap m => Ret (YMap m)
  | YSeq l => Ret (YSeq l)
  | _ => Raise AttributeError
  end.

(** [v[k] = x] for a string [k] *)
Definition setitem (v : yaml) (k : string) (x : yaml) : result yaml :=
  match v with
  | YMap m => Ret (YMap (dict_set m k x))
  | _ => Raise TypeError
  end.

Definition hashable (v : yaml) : bool :=
  match v with
  | YSeq _ | YMap _ => false
  | _ => true
  end.

(** [set(v)]: the elements, kept as a list; membership is all that is used *)
Definition set_of (v : yaml) : result (list yaml) :=
  match v with
  | YSeq l => if forallb hashable l then Ret l else Raise TypeError
  | YMap m => Ret (map (fun kv => YStr (fst kv)) m)
  | YStr s => Ret (map YStr (PyStr.chars s))
  | _ => Raise TypeError
  end.

Definition str_in (l : list string) (v : yaml) : bool :=
  match v with
  | YStr t => bool_decide (t ∈ l)
  | _ => false
  end.

(** [existing == set(new)] for a set of loaded values and a list of strings:
    a value that is not a string equals no string. *)
Definition set_eq (existing : list yaml) (new : list string) : bool :=
  forallb (str_in new) existing &&
  forallb (fun s => existsb (is_str s) existing) new.

End Py.

(* ===================================================================== *)
(** ** Configuration and collaborators *)
(* ===================================================================== *)

(** The configuration mapping, with the blocks and keys the module reads.
    A key that is absent is [None]; sub-blocks are mappings, paths and the
    user name are strings. *)
Record kometa_config_t : Type := {
  kc_yaml_output_dir : option string;
  kc_collections_dir : option string
}.

Record tv_status_tracker_t : Type := {
  tv_yaml_output_dir : option string;
  tv_collections_dir : option string;
  tv_font_path : option string
}.

Record anime_episode_type_t : Type := {
  aet_enabled : bool;
  aet_overlay : list (string * yaml)
}.

Record services_t : Type := {
  tv_status_tracker : option tv_status_tracker_t;
  anime_episode_type : option anime_episode_type_t
}.

Record Config : Type := {
  kometa_config : option kometa_config_t;
  services : option services_t;
  trakt_username : option string
}.

(** One record of the remote service's answer: [name] and [ids.slug]. *)
Record trakt_list : Type := {
  tl_name : option string;
  tl_slug : option string
}.

(** The answer of [requests.get]: [json_body] is [None] when the body does
    not decode, so that [response.json()] raises. *)
Record response : Type := {
  status_code : Z;
  json_body : option (list trakt_list)
}.

Record env : Type := {
  mkdir_ok : string -> bool;
  read_ok : string -> bool;
  write_ok : string -> bool;
  ensure_trakt_auth : result (option string);
  requests_get : string -> string -> result response
}.

(* ===================================================================== *)
(** ** The world and the monad of effects *)
(* ===================================================================== *)

(** A file holds a document that [yaml.safe_load] reads back as [doc] (what
    [yaml.dump doc] writes), or bytes on which [yaml.safe_load] raises. *)
Inductive content : Type :=
| Raw (bytes : string)
| Doc (doc : yaml).

Inductive level : Type := INFO | WARNING | ERROR.

Record world : Type := {
  w_dirs : gset string;
  w_files : gmap string content;
  w_writes : list string;
  w_log : list (level * string);
  w_console : list string
}.

Definition M (A : Type) : Type := world -> result A * world.

Definition ret {A : Type} (a : A) : M A := fun w => (Ret a, w).

Definition bind {A B : Type} (m : M A) (k : A -> M B) : M B :=
  fun w =>
    match m w with
    | (Ret a, w') => k a w'
    | (Raise e, w') => (Raise e, w')
    end.

Notation "'let*' x := m 'in' k" := (bind m (fun x => k))
  (at level 10, x name, m at level 100, k at level 200, only parsing).
Notation "m ;;; k" := (bind m (fun _ => k))
  (at level 100, k at level 200, right associativity, only parsing).

Definition lift {A : Type} (r : result A) : M A := fun w => (r, w).

(** [try: body  except Exception as e: handler e] *)
Definition try_except {A : Type} (body : M A) (handler : exn -> M A) : M A :=
  fun w =>
    match body w with
    | (Raise e, w') => handler e w'
    | r => r
    end.

Definition log (l : level) (msg : string) : M unit :=
  fun w => (Ret tt,
            {| w_dirs := w_dirs w; w_files := w_files w;
               w_writes := w_writes w; w_log := w_log w ++ [(l, msg)];
               w_console := w_console w |}).

Definition console_print (msg : string) : M unit :=
  fun w => (Ret tt,
            {| w_dirs := w_dirs w; w_files := w_files w;
               w_writes := w_writes w; w_log := w_log w;
               w_console := w_console w ++ [msg] |}).

Definition is_file (w : world) (p : string) : bool :=
  match w_files w !! p with Some _ => true | None => false end.

Definition exists_at (w : world) (p : string) : bool :=
  bool_decide (p ∈ w_dirs w) || is_file w p.

(** [os.path.exists(p)] *)
Definition path_exists (p : string) : M bool :=
  fun w => (Ret (exists_at w p), w).

(** [os.makedirs(p, exist_ok=True)] *)
Definition makedirs (E : env) (p : string) : M unit :=
  fun w =>
    if mkdir_ok E p
    then (Ret tt,
          {| w_dirs := {[p]} ∪ w_dirs w; w_files := w_files w;
             w_writes := w_writes w; w_log := w_log w;
             w_console := w_console w |})
    else (Raise OSError, w).

(** [with open(p, 'r') as file: yaml.safe_load(file)] *)
Definition safe_load_file (E : env) (p : string) : M yaml :=
  fun w =>
    if read_ok E p
    then match w_files w !! p with
         | Some (Doc y) => (Ret y, w)
         | Some (Raw _) => (Raise YAMLError, w)
         | None => (Raise OSError, w)
         end
    else (Raise OSError, w).

Definition put_file (p : string) (c : content) (w : world) : world :=
  {| w_dirs := w_dirs w; w_files := <[p := c]> (w_files w);
     w_writes := w_writes w ++ [p]; w_log := w_log w;
     w_console := w_console w |}.

(** [with open(p, 'w') as file: yaml.dump(y, file, ...)] *)
Definition dump_file (E : env) (p : string) (y : yaml) : M unit :=
  fun w =>
    if write_ok E p then (Ret tt, put_file p (Doc y) w)
    else (Raise OSError, w).

(** [shutil.copy2(source, destination)] *)
Definition copy2 (E : env) (source destination : string) : M unit :=
  fun w =>
    match w_files w !! source with
    | Some c =>
        if write_ok E destination then (Ret tt, put_file destination c w)
        else (Raise OSError, w)
    | None => (Raise OSError, w)
    end.

(* ===================================================================== *)
(** ** The functions of [asset_manager.py] *)
(* ===================================================================== *)

Definition CONTAINER_ASSETS_DIR : string := "/app/assets".
Definition CONTAINER_FONTS_DIR : string := "/app/fonts".

(** [not s] for a value that is a string or [None] *)
Definition falsy (s : option string) : bool :=
  match s with
  | Some t => String.eqb t ""
  | None => true
  end.

Definition or_default (s : option string) (d : string) : string :=
  match s with
  | Some t => if String.eqb t "" then d else t
  | None => d
  end.

Definition ensure_directory (E : env) (directory : string) : M bool :=
  let* ex := path_exists directory in
  if negb ex then
    try_except
      (makedirs E directory ;;;
       log INFO ("Created directory: " +:+ directory) ;;;
       ret true)
      (fun e =>
         log ERROR ("Error creating directory " +:+ directory +:+ ": "
                    +:+ exn_str e) ;;;
         ret false)
  else ret true.

(** [config['services']['tv_status_tracker']], when both keys are present *)
Definition tv_block (config : Config) : option tv_status_tracker_t :=
  match services config with
  | Some s => tv_status_tracker s
  | None => None
  end.

Definition get_kometa_paths (config : Config) : string * string :=
  let yaml_output_dir :=
    match kometa_config config with
    | Some k => kc_yaml_output_dir k
    | None => None
    end in
  let collections_dir :=
    match kometa_config config with
    | Some k => kc_collections_dir k
    | None => None
    end in
  let yaml_output_dir :=
    if falsy yaml_output_dir then
      match tv_block config with
      | Some tv => tv_yaml_output_dir tv
      | None => yaml_output_dir
      end
    else yaml_output_dir in
  let collections_dir :=
    if falsy collections_dir then
      match tv_block config with
      | Some tv => tv_collections_dir tv
      | None => collections_dir
      end
    else collections_dir in
  (or_default yaml_output_dir "/kometa/config/overlays",
   or_default collections_dir "/kometa/config/collections").

Definition copy_asset (E : env) (source destination : string) : M bool :=
  try_except
    (let dest_dir := PyStr.dirname destination in
     let* ok := ensure_directory E dest_dir in
     if negb ok then ret false
     else
       copy2 E source destination ;;;
       log INFO ("Copied asset: " +:+ source +:+ " -> " +:+ destination) ;;;
       ret true)
    (fun e =>
       log ERROR ("Error copying asset " +:+ source +:+ " to "
                  +:+ destination +:+ ": " +:+ exn_str e) ;;;
       ret false).

Definition setup_collection_posters (E : env) (config : Config) : M bool :=
  let collections_dir := snd (get_kometa_paths config) in
  let kometa_config := PyStr.dirname collections_dir in
  let assets_dir :=
    PyStr.join (PyStr.join kometa_config "assets") "Next Airing" in
  let* ok := ensure_directory E assets_dir in
  if negb ok then ret false
  else
    let poster_source :=
      PyStr.join CONTAINER_ASSETS_DIR "next_airing_poster.jpg" in
    let poster_dest := PyStr.join assets_dir "poster.jpg" in
    let* ex := path_exists poster_source in
    if ex then copy_asset E poster_source poster_dest
    else
      log WARNING ("Poster image not found in container: "
                   +:+ poster_source) ;;;
      ret false.

(** [config['services']['tv_status_tracker']['font_path'] = font_dest] *)
Definition set_font_path (config : Config) (font_dest : string) : Config :=
  match services config with
  | Some s =>
      match tv_status_tracker s with
      | Some tv =>
          {| kometa_config := kometa_config config;
             services :=
               Some {| tv_status_tracker :=
                         Some {| tv_yaml_output_dir := tv_yaml_output_dir tv;
                                 tv_collections_dir := tv_collections_dir tv;
                                 tv_font_path := Some font_dest |};
                       anime_episode_type := anime_episode_type s |};
             trakt_username := trakt_username config |}
      | None => config
      end
  | None => config
  end.

(** [setup_fonts] updates the configuration mapping in place; the mapping
    after the call is returned next to the flag. *)
Definition setup_fonts (E : env) (config : Config) : M (bool * Config) :=
  let kometa_config :=
    match tv_block config with
    | Some tv =>
        PyStr.dirname
          (match tv_collections_dir tv with
           | Some d => d
           | None => "/kometa/config/collections"
           end)
    | None => "/kometa/config"
    end in
  let fonts_dir := PyStr.join kometa_config "fonts" in
  let* ok := ensure_directory E fonts_dir in
  if negb ok then ret (false, config)
  else
    let font_source := PyStr.join CONTAINER_FONTS_DIR "Juventus-Fans-Bold.ttf" in
    let font_dest := PyStr.join fonts_dir "Juventus-Fans-Bold.ttf" in
    let* ex := path_exists font_source in
    if ex then
      let* copied := copy_asset E font_source font_dest in
      if copied then
        match tv_block config with
        | Some _ =>
            log INFO ("Updated font path in config to: " +:+ font_dest) ;;;
            ret (true, set_font_path config font_dest)
        | None => ret (true, config)
        end
      else ret (false, config)
    else
      log WARNING ("Font not found in container: " +:+ font_source) ;;;
      ret (false, config).

(** *** Classification of the remote lists (lines 181-224) *)

Definition collections_data_init : list (string * list string) :=
  [("Fillers", []); ("Manga Canon", []); ("Anime Canon", []);
   ("Mixed Canon/Filler", [])].

(** the chain of [if]/[elif] on [episode_type.lower()] *)
Definition collection_of (episode_type : string) : option string :=
  let t := PyStr.lower episode_type in
  if String.eqb t "filler" then Some "Fillers"
  else if String.eqb t "manga-canon" then Some "Manga Canon"
  else if String.eqb t "manga canon" then Some "Manga Canon"
  else if String.eqb t "anime-canon" then Some "Anime Canon"
  else if String.eqb t "anime canon" then Some "Anime Canon"
  else if String.eqb t "mixed-canon-filler" then Some "Mixed Canon/Filler"
  else if String.eqb t "mixed canon/filler" then Some "Mixed Canon/Filler"
  else None.

Definition list_name (tl : trakt_list) : string :=
  match tl_name tl with Some n => n | None => "" end.

Definition list_url (trakt_username : string) (tl : trakt_list) : string :=
  let list_slug :=
    match tl_slug tl with Some s => s | None => list_name tl end in
  "https://trakt.tv/users/" +:+ trakt_username +:+ "/lists/" +:+ list_slug.

(** [collections_data[c].append(url)] *)
Definition dict_append (cd : list (string * list string)) (c url : string)
  : list (string * list string) :=
  map (fun kv => if decide (fst kv = c) then (fst kv, snd kv ++ [url]) else kv)
      cd.

(** the collection a remote list goes to, if any *)
Definition list_collection (tl : trakt_list) : option string :=
  let name := list_name tl in
  if PyStr.contains_char "_" name then
    match PyStr.split1 "_" name with
    | [_; episode_type] => collection_of episode_type
    | _ => None
    end
  else None.

(** one turn of the loop over [trakt_lists] *)
Definition classify_step (trakt_username : string)
  (cd : list (string * list string)) (tl : trakt_list)
  : list (string * list string) :=
  match list_collection tl with
  | Some c => dict_append cd c (list_url trakt_username tl)
  | None => cd
  end.

Definition classify (trakt_username : string) (trakt_lists : list trakt_list)
  : list (string * list string) :=
  fold_left (classify_step trakt_username) trakt_lists collections_data_init.

(** *** Reading the existing file (lines 226-239) *)

Definition empty_collections : yaml := YMap [("collections", YMap [])].

Definition load_existing (E : env) (collections_file : string) : M yaml :=
  let* ex := path_exists collections_file in
  if ex then
    try_except
      (let* y := safe_load_file E collections_file in
       ret (if Py.truthy y then y else empty_collections))
      (fun e =>
         log ERROR ("Error reading existing collections file: "
                    +:+ exn_str e) ;;;
         ret empty_collections)
  else ret empty_collections.

(** *** Change detection (lines 241-250) *)

(** the loop over [existing_collections.get('collections', {}).items()];
    it returns the value of [changes_detected] when the loop is left *)
Fixpoint detect_loop (items : list (string * yaml))
  (collections_data : list (string * list string)) (changes_detected : bool)
  : M bool :=
  match items with
  | [] => ret changes_detected
  | (collection_name, collection_data) :: rest =>
      let* tl := lift (Py.get collection_data "trakt_list" (YSeq [])) in
      let* existing_lists := lift (Py.set_of tl) in
      match dict_get collections_data collection_name with
      | Some new_lists =>
          if negb (Py.set_eq existing_lists new_lists) then
            log INFO ("Changes detected in " +:+ collection_name
                      +:+ " collection") ;;;
            ret true
          else detect_loop rest collections_data changes_detected
      | None => detect_loop rest collections_data changes_detected
      end
  end.

Definition detect_changes (force_update : bool) (existing_collections : yaml)
  (collections_data : list (string * list string)) : M bool :=
  if negb force_update && Py.truthy existing_collections then
    let* colls := lift (Py.get existing_collections "collections" (YMap [])) in
    let* items := lift (Py.items colls) in
    detect_loop items collections_data force_update
  else ret force_update.

(** *** The new collections structure (lines 253-275) *)

Definition item_label (collection_name : string) : string :=
  PyStr.replace " Canon" "Canon" (PyStr.replace " Canon/Filler" "" collection_name).

Definition url_seq (list_urls : list string) : yaml := YSeq (map YStr list_urls).

Definition default_settings (collection_name : string)
  (list_urls : list string) : yaml :=
  YMap [("trakt_list", url_seq list_urls);
        ("sync_mode", YStr "sync");
        ("item_label", YStr (item_label collection_name));
        ("builder_level", YStr "episode");
        ("cache_builders", YInt 6)].

(** [existing_collections and 'collections' in existing_collections and
    collection_name in existing_collections['collections']] *)
Definition has_existing (existing_collections : yaml)
  (collection_name : string) : result bool :=
  if Py.truthy existing_collections then
    let? b := Py.contains "collections" existing_collections in
    if b then
      let? colls := Py.getitem existing_collections "collections" in
      Py.contains collection_name colls
    else Ret false
  else Ret false.

Definition collection_settings (existing_collections : yaml)
  (collection_name : string) (list_urls : list string) : result yaml :=
  let? has := has_existing existing_collections collection_name in
  if has then
    let? colls := Py.getitem existing_collections "collections" in
    let? old := Py.getitem colls collection_name in
    let? settings := Py.copy old in
    Py.setitem settings "trakt_list" (url_seq list_urls)
  else Ret (default_settings collection_name list_urls).

(** the loop over [collections_data.items()]; [acc] is
    [new_collections['collections']] *)
Fixpoint build_loop (existing_collections : yaml)
  (collections_data : list (string * list string))
  (acc : list (string * yaml)) : result (list (string * yaml)) :=
  match collections_data with
  | [] => Ret acc
  | (collection_name, list_urls) :: rest =>
      let? settings :=
        collection_settings existing_collections collection_name list_urls in
      build_loop existing_collections rest (dict_set acc collection_name settings)
  end.

Definition new_collections (existing_collections : yaml)
  (collections_data : list (string * list string)) : result yaml :=
  let? colls := build_loop existing_collections collections_data [] in
  Ret (YMap [("collections", YMap colls)]).

(** *** Overlay files (lines 293-370) *)

Record overlay_values : Type := {
  overlay_name : string;
  ov_name : string;
  ov_label : string
}.

Definition overlay_configs : list (string * overlay_values) :=
  [("fillers.yml",
    {| overlay_name := "filler_overlay"; ov_name := "Filler";
       ov_label := "Filler" |});
   ("manga_canon.yml",
    {| overlay_name := "manga_overlay"; ov_name := "Manga Canon";
       ov_label := "MangaCanon" |});
   ("anime_canon.yml",
    {| overlay_name := "anime_overlay"; ov_name := "Anime Canon";
       ov_label := "AnimeCanon" |});
   ("mixed.yml",
    {| overlay_name := "mixed_overlay"; ov_name := "Mixed Canon/Filler";
       ov_label := "Mixed" |})].

Definition setting (overlay_settings : list (string * yaml)) (k : string)
  (default : yaml) : yaml :=
  match dict_get overlay_settings k with Some v => v | None => default end.

Definition overlay_content (overlay_settings : list (string * yaml))
  (values : overlay_values) : yaml :=
  let font_path := "config/fonts/Juventus-Fans-Bold.ttf" in
  YMap [("overlays",
    YMap [(overlay_name values,
      YMap [("builder_level", YStr "episode");
            ("overlay",
             YMap [("name", YStr ("text(" +:+ ov_name values +:+ ")"));
                   ("horizontal_offset",
                    setting overlay_settings "horizontal_offset" (YInt 0));
                   ("horizontal_align",
                    setting overlay_settings "horizontal_align" (YStr "center"));
                   ("vertical_offset",
                    setting overlay_settings "vertical_offset" (YInt 0));
                   ("vertical_align",
                    setting overlay_settings "vertical_align" (YStr "top"));
                   ("font_size", setting overlay_settings "font_size" (YInt 75));
                   ("font", YStr font_path);
                   ("back_width",
                    setting overlay_settings "back_width" (YInt 1920));
                   ("back_height",
                    setting overlay_settings "back_height" (YInt 125));
                   ("back_color",
                    setting overlay_settings "back_color" (YStr "#262626"))]);
            ("plex_search",
             YMap [("all", YMap [("episode_label", YStr (ov_label values))])])
           ])])].

(** the loop over [overlay_configs.items()] *)
Fixpoint overlay_loop (E : env) (yaml_output_dir : string)
  (overlay_settings : list (string * yaml))
  (configs : list (string * overlay_values)) (success : bool) : M bool :=
  match configs with
  | [] => ret success
  | (filename, values) :: rest =>
      let overlay_file := PyStr.join yaml_output_dir filename in
      let* ex := path_exists overlay_file in
      if ex then overlay_loop E yaml_output_dir overlay_settings rest success
      else
        let* success :=
          try_except
            (dump_file E overlay_file (overlay_content overlay_settings values) ;;;
             ret success)
            (fun e =>
               log ERROR ("Error creating overlay file " +:+ filename +:+ ": "
                          +:+ exn_str e) ;;;
               ret false) in
        overlay_loop E yaml_output_dir overlay_settings rest success
  end.

Definition create_anime_overlay_files (E : env) (config : Config) : M bool :=
  let yaml_output_dir := fst (get_kometa_paths config) in
  let overlay_settings :=
    match services config with
    | Some s =>
        match anime_episode_type s with
        | Some a => aet_overlay a
        | None => []
        end
    | None => []
    end in
  let* ok := ensure_directory E yaml_output_dir in
  if negb ok then ret false
  else overlay_loop E yaml_output_dir overlay_settings overlay_configs true.

(** *** The sync (lines 137-291) *)

Definition collections_file_of (config : Config) : string :=
  PyStr.join (snd (get_kometa_paths config)) "anime_episode_type.yml".

(** Lines 181-291 of [sync_anime_episode_collections]: what the function
    does once the remote answer [trakt_lists] is there. *)
Definition merge_collections (E : env) (config : Config)
  (force_update : bool) (trakt_username : string)
  (trakt_lists : list trakt_list) : M bool :=
  let collections_dir := snd (get_kometa_paths config) in
  let collections_data := classify trakt_username trakt_lists in
  let collections_file := PyStr.join collections_dir "anime_episode_type.yml" in
  let* existing_collections := load_existing E collections_file in
  let* changes_detected :=
    detect_changes force_update existing_collections collections_data in
  if changes_detected then
    let* new_doc :=
      lift (new_collections existing_collections collections_data) in
    try_except
      (dump_file E collections_file new_doc ;;;
       create_anime_overlay_files E config ;;;
       ret true)
      (fun e =>
         log ERROR ("Error writing collections file: " +:+ exn_str e) ;;;
         ret false)
  else
    log INFO "No changes detected in anime episode collections" ;;;
    ret true.

(** [f"{trakt_api_url}/users/{trakt_username}/lists"] *)
Definition lists_url_of (trakt_username : string) : string :=
  "https://api.trakt.tv" +:+ "/users/" +:+ trakt_username +:+ "/lists".

(** Lines 147-179, then the rest. *)
Definition sync_anime_episode_collections (E : env) (config : Config)
  (force_update : bool) : M bool :=
  let collections_dir := snd (get_kometa_paths config) in
  let* ok := ensure_directory E collections_dir in
  if negb ok then ret false
  else if falsy (trakt_username config) then
    log ERROR "Trakt username not found in config - cannot proceed without it" ;;;
    ret false
  else
    let trakt_username := or_default (trakt_username config) "" in
    let* access_token := lift (ensure_trakt_auth E) in
    if falsy access_token then
      log ERROR "Failed to get Trakt access token" ;;;
      ret false
    else
      let lists_url := lists_url_of trakt_username in
      let* response :=
        lift (requests_get E lists_url (or_default access_token "")) in
      if negb (status_code response =? 200) then
        log ERROR ("Failed to get Trakt lists. Status: "
                   +:+ pretty (status_code response)) ;;;
        ret false
      else
        let* trakt_lists :=
          lift (match json_body response with
                | Some l => Ret l
                | None => Raise JSONDecodeError
                end) in
        merge_collections E config force_update trakt_username trakt_lists.

Definition update_anime_episode_collections (E : env) (config : Config)
  : M bool :=
  sync_anime_episode_collections E config true.

Definition setup_assets (E : env) (config : Config) : M bool :=
  console_print "[bold blue]Setting up DAKOSYS assets...[/bold blue]" ;;;
  let* poster_result := setup_collection_posters E config in
  (if poster_result
   then console_print "[green]Collection poster setup successfully[/green]"
   else console_print "[yellow]Collection poster setup failed or skipped[/yellow]") ;;;
  let* fonts := setup_fonts E config in
  let font_result := fst fonts in
  let config := snd fonts in
  (if font_result
   then console_print "[green]Fonts setup successfully[/green]"
   else console_print "[yellow]Fonts setup failed or skipped[/yellow]") ;;;
  let enabled :=
    match services config with
    | Some s =>
        match anime_episode_type s with
        | Some a => aet_enabled a
        | None => false
        end
    | None => false
    end in
  (if enabled then
     console_print "[blue]Setting up anime episode type collections...[/blue]" ;;;
     let* collections_result := update_anime_episode_collections E config in
     (if collections_result
      then console_print "[green]Anime episode collections setup successfully[/green]"
      else console_print "[yellow]Anime episode collections setup failed[/yellow]") ;;;
     console_print "[blue]Setting up anime episode type overlays...[/blue]" ;;;
     let* overlays_result := create_anime_overlay_files E config in
     (if overlays_result
      then console_print "[green]Anime episode overlays setup successfully[/green]"
      else console_print "[yellow]Anime episode overlays setup failed[/yellow]")
   else ret tt) ;;;
  ret true.

(* ===================================================================== *)
(** ** Vocabulary of the statements *)
(* ===================================================================== *)

(** the four fixed collection names, in the order of [collections_data] *)
Definition FIXED : list string :=
  ["Fillers"; "Manga Canon"; "Anime Canon"; "Mixed Canon/Filler"].

(** the URLs of the remote lists that go to collection [c], in the order of
    the remote answer *)
Definition urls_of (trakt_username : string) (trakt_lists : list trakt_list)
  (c : string) : list string :=
  map (list_url trakt_username)
      (List.filter (fun tl => bool_decide (list_collection tl = Some c))
                   trakt_lists).

(** the credential and HTTP collaborators answer the sync of [config] with
    status 200 and the records [trakt_lists] *)
Definition fetched (E : env) (config : Config) (u : string)
  (trakt_lists : list trakt_list) : Prop :=
  trakt_username config = Some u /\ u <> "" /\
  exists tok, ensure_trakt_auth E = Ret (Some tok) /\ tok <> "" /\
    requests_get E (lists_url_of u) tok
    = Ret {| status_code := 200; json_body := Some trakt_lists |}.

(** the collections document the sync works from: what is read from the
    collections file, or the empty structure when the file is absent, cannot
    be read or parsed, or holds an empty document *)
Definition prior_document (E : env) (files : gmap string content)
  (collections_file : string) : yaml :=
  if read_ok E collections_file then
    match files !! collections_file with
    | Some (Doc y) => if Py.truthy y then y else empty_collections
    | _ => empty_collections
    end
  else empty_collections.

(** the paths written between two worlds *)
Definition written_between (w w' : world) : list string :=
  drop (length (w_writes w)) (w_writes w').

(** no file was written or changed between [w] and [w'] *)
Definition no_write (w w' : world) : Prop :=
  w_files w' = w_files w /\ w_writes w' = w_writes w.

(** nothing on disk changed except that directories may have been made *)
Definition quiet (w w' : world) : Prop :=
  no_write w w' /\ w_dirs w ⊆ w_dirs w'.

(** every file of [w] is in [w'] with the same content *)
Definition keeps_files (w w' : world) : Prop :=
  forall p c, w_files w !! p = Some c -> w_files w' !! p = Some c.

(** the writes between [w] and [w'] went to paths at which nothing was *)
Definition new_files_only (w w' : world) : Prop :=
  exists ws, w_writes w' = w_writes w ++ ws /\
             forall q, In q ws -> exists_at w q = false.

(** files are kept, directories stay, and only new files were written *)
Definition grows (w w' : world) : Prop :=
  keeps_files w w' /\ w_dirs w ⊆ w_dirs w' /\ new_files_only w w'.

(** the file at [p] holds [c] in [w'] and was not written since [w] *)
Definition untouched (p : string) (c : content) (w w' : world) : Prop :=
  w_files w' !! p = Some c /\
  exists ws, w_writes w' = w_writes w ++ ws /\ ~ In p ws.

(** the collections mapping of a loaded collections document *)
Definition collections_of (doc : yaml) : option (list (string * yaml)) :=
  match doc with
  | YMap top =>
      match dict_get top "collections" with
      | Some (YMap colls) => Some colls
      | _ => None
      end
  | _ => None
  end.

(** the settings stored under [c] in a collections mapping *)
Definition entry_of (colls : list (string * yaml)) (c : string)
  : option (list (string * yaml)) :=
  match dict_get colls c with
  | Some (YMap settings) => Some settings
  | _ => None
  end.

(** whether an entry of the prior file differs from the classification:
    lines 244-247, for one entry *)
Definition entry_differs (collections_data : list (string * list string))
  (entry : string * yaml) : result bool :=
  let? tl := Py.get (snd entry) "trakt_list" (YSeq []) in
  let? existing_lists := Py.set_of tl in
  Ret (match dict_get collections_data (fst entry) with
       | Some new_lists => negb (Py.set_eq existing_lists new_lists)
       | None => false
       end).

(** a call of one of the two operations that write overlay files *)
Inductive call : Type :=
| CallOverlays (E : env) (config : Config)
| CallSync (E : env) (config : Config) (force_update : bool).

Definition run_call (c : call) (w : world) : world :=
  match c with
  | CallOverlays E config => snd (create_anime_overlay_files E config w)
  | CallSync E config force_update =>
      snd (sync_anime_episode_collections E config force_update w)
  end.

Definition run_calls (cs : list call) (w : world) : world :=
  fold_left (fun w c => run_call c w) cs w.

Definition overlay_files_of (config : Config) : list string :=
  map (fun fv => PyStr.join (fst (get_kometa_paths config)) (fst fv))
      overlay_configs.

(** the bundled assets and the directories they are copied to *)
Definition poster_source : string :=
  PyStr.join CONTAINER_ASSETS_DIR "next_airing_poster.jpg".

Definition font_source : string :=
  PyStr.join CONTAINER_FONTS_DIR "Juventus-Fans-Bold.ttf".

Definition assets_dir_of (config : Config) : string :=
  PyStr.join
    (PyStr.join (PyStr.dirname (snd (get_kometa_paths config))) "assets")
    "Next Airing".

Definition fonts_dir_of (config : Config) : string :=
  PyStr.join
    match tv_block config with
    | Some tv =>
        PyStr.dirname
          (match tv_collections_dir tv with
           | Some d => d
           | None => "/kometa/config/collections"
           end)
    | None => "/kometa/config"
    end
    "fonts".

(** one path of the configuration: the new-format value when it is set and
    not empty, else the legacy value when there is one and it is not empty,
    else the default *)
Definition resolve_path (new_format legacy : option string) (default : string)
  : string :=
  if falsy new_format then or_default legacy default
  else or_default new_format default.

Definition new_format_of (config : Config)
  (field : kometa_config_t -> option string) : option string :=
  match kometa_config config with
  | Some k => field k
  | None => None
  end.

Definition legacy_of (config : Config)
  (field : tv_status_tracker_t -> option string) : option string :=
  match tv_block config with
  | Some tv => field tv
  | None => None
  end.

(** the remote lists that go to some collection *)
Definition recognized (trakt_lists : list trakt_list) : list trakt_list :=
  List.filter
    (fun tl => match list_collection tl with Some _ => true | None => false end)
    trakt_lists.

Definition poster_dest_of (config : Config) : string :=
  PyStr.join (assets_dir_of config) "poster.jpg".

Definition font_dest_of (config : Config) : string :=
  PyStr.join (fonts_dir_of config) "Juventus-Fans-Bold.ttf".




(* ===================================================================== *)
(** ** Sample inputs *)
(* ===================================================================== *)

Module Sample.

Definition naruto_filler : trakt_list :=
  {| tl_name := Some "Naruto_filler"; tl_slug := Some "naruto-filler" |}.

Definition naruto_filler_again : trakt_list :=
  {| tl_name := Some "Naruto_Filler"; tl_slug := Some "naruto-filler" |}.

Definition old_filler : trakt_list :=
  {| tl_name := Some "Naruto_filler"; tl_slug := Some "old" |}.

Definition naruto_manga : trakt_list :=
  {| tl_name := Some "Naruto_Manga Canon"; tl_slug := Some "naruto-manga-canon" |}.

(** every collaborator answers; the remote service returns [trakt_lists] *)
Definition online (trakt_lists : list trakt_list) : env :=
  {| mkdir_ok := fun _ => true;
     read_ok := fun _ => true;
     write_ok := fun _ => true;
     ensure_trakt_auth := Ret (Some "token");
     requests_get := fun _ _ =>
       Ret {| status_code := 200; json_body := Some trakt_lists |} |}.

(** the HTTP call raises: the network is down *)
Definition network_down : env :=
  {| mkdir_ok := fun _ => true;
     read_ok := fun _ => true;
     write_ok := fun _ => true;
     ensure_trakt_auth := Ret (Some "token");
     requests_get := fun _ _ => Raise ConnectionError |}.

(** the HTTP call answers 200 with a body that is not JSON *)
Definition bad_body : env :=
  {| mkdir_ok := fun _ => true;
     read_ok := fun _ => true;
     write_ok := fun _ => true;
     ensure_trakt_auth := Ret (Some "token");
     requests_get := fun _ _ =>
       Ret {| status_code := 200; json_body := None |} |}.

(** the file system refuses every write *)
Definition read_only : env :=
  {| mkdir_ok := fun _ => true;
     read_ok := fun _ => true;
     write_ok := fun _ => false;
     ensure_trakt_auth := Ret (Some "token");
     requests_get := fun _ _ =>
       Ret {| status_code := 200; json_body := Some [] |} |}.

(** the remote service refuses the token *)
Definition unauthorized : env :=
  {| mkdir_ok := fun _ => true;
     read_ok := fun _ => true;
     write_ok := fun _ => true;
     ensure_trakt_auth := Ret (Some "token");
     requests_get := fun _ _ =>
       Ret {| status_code := 401; json_body := None |} |}.



Definition alice : Config :=
  {| kometa_config := None;
     services :=
       Some {| tv_status_tracker := None;
               anime_episode_type :=
                 Some {| aet_enabled := true; aet_overlay := [] |} |};
     trakt_username := Some "alice" |}.

(** a configuration in the old format: the paths are under
    [services.tv_status_tracker] *)
Definition legacy : Config :=
  {| kometa_config := None;
     services :=
       Some {| tv_status_tracker :=
                 Some {| tv_yaml_output_dir := Some "/data/kometa/overlays";
                         tv_collections_dir := Some "/data/kometa/collections";
                         tv_font_path := None |};
               anime_episode_type := None |};
     trakt_username := Some "alice" |}.

Definition collections_file : string :=
  "/kometa/config/collections/anime_episode_type.yml".

Definition fillers_overlay : string := "/kometa/config/overlays/fillers.yml".

Definition empty_world : world :=
  {| w_dirs := ∅; w_files := ∅; w_writes := []; w_log := [];
     w_console := [] |}.

(** a collections file edited by the user: [Fillers] appends, and there is
    an entry of the user's own *)
Definition edited_collections : list (string * yaml) :=
  [("Fillers",
    YMap [("trakt_list", YSeq [YStr "https://trakt.tv/users/alice/lists/old"]);
          ("sync_mode", YStr "append");
          ("item_label", YStr "Fillers")]);
   ("Custom",
    YMap [("trakt_list", YSeq [YStr "https://trakt.tv/users/alice/lists/mine"]);
          ("sync_mode", YStr "append")])].

Definition edited_world : world :=
  {| w_dirs := {["/kometa/config/collections"]};
     w_files :=
       {[collections_file := Doc (YMap [("collections", YMap edited_collections)])]};
     w_writes := []; w_log := []; w_console := [] |}.

(** a collections file with an entry that has no value *)
Definition null_entry_world : world :=
  {| w_dirs := {["/kometa/config/collections"]};
     w_files :=
       {[collections_file :=
           Doc (YMap [("collections", YMap [("Custom", YNull)])])]};
     w_writes := []; w_log := []; w_console := [] |}.

(** a collections file in which [Anime Canon] is a bare list of URLs *)
Definition list_entry_world : world :=
  {| w_dirs := {["/kometa/config/collections"]};
     w_files :=
       {[collections_file :=
           Doc (YMap [("collections",
                  YMap [("Anime Canon",
                         YSeq [YStr "https://trakt.tv/users/alice/lists/x"])])])]};
     w_writes := []; w_log := []; w_console := [] |}.

(** a collections file that does not parse *)
Definition unparsable_world : world :=
  {| w_dirs := {["/kometa/config/collections"]};
     w_files := {[collections_file := Raw "collections: [unclosed"]};
     w_writes := []; w_log := []; w_console := [] |}.


(** an overlay file written by hand *)
Definition overlay_world : world :=
  {| w_dirs := {["/kometa/config/overlays"]};
     w_files := {[fillers_overlay := Raw "# my own overlay"]};
     w_writes := []; w_log := []; w_console := [] |}.

End Sample.

(* ===================================================================== *)
(** ** Strings and paths *)
(* ===================================================================== *)

Lemma append_assoc_s (a b c : string) : (a +:+ b) +:+ c = a +:+ (b +:+ c).
Proof.
  induction a as [|x a IH]; [reflexivity |].
  change (String x ((a +:+ b) +:+ c) = String x (a +:+ (b +:+ c))).
  now rewrite IH.
Qed.

Lemma length_append_s (a b : string) :
  String.length (a +:+ b) = (String.length a + String.length b)%nat.
Proof.
  induction a as [|x a IH]; [reflexivity |].
  change (S (String.length (a +:+ b)) = S (String.length a + String.length b)).
  now rewrite IH.
Qed.

(** Two strings that are equal and end in suffixes of the same length have
    the same suffix. *)
Lemma append_suffix_inj (x y s t : string) :
  x +:+ s = y +:+ t -> String.length s = String.length t -> s = t.
Proof.
  intros Heq Hlen.
  assert (Hxy : String.length x = String.length y).
  { apply (f_equal String.length) in Heq.
    rewrite !length_append_s in Heq. lia. }
  revert y Heq Hxy. induction x as [|c x IH]; intros [|d y] Heq Hxy;
    simpl in *; try discriminate.
  - exact Heq.
  - injection Heq as _ Heq. apply (IH y); [exact Heq | lia].
Qed.

Lemma join_relative (a b : string) :
  PyStr.starts_with_slash b = false -> exists x, PyStr.join a b = x +:+ b.
Proof.
  intros Hb. unfold PyStr.join. rewrite Hb.
  destruct (String.eqb a "" || PyStr.ends_with_slash a).
  - now exists a.
  - exists (a +:+ "/"). symmetry. apply append_assoc_s.
Qed.

(** A path made by [join] from a relative name ends in that name; two such
    paths whose names end differently are different. *)
Lemma join_differ (a b pa pb sa sb a' b' : string) :
  a' = pa +:+ sa -> b' = pb +:+ sb ->
  PyStr.starts_with_slash a' = false -> PyStr.starts_with_slash b' = false ->
  String.length sa = String.length sb -> sa <> sb ->
  PyStr.join a a' <> PyStr.join b b'.
Proof.
  intros -> -> Ha Hb Hlen Hne Heq.
  destruct (join_relative a _ Ha) as [x Hx].
  destruct (join_relative b _ Hb) as [y Hy].
  rewrite Hx, Hy, <- !append_assoc_s in Heq.
  now apply append_suffix_inj in Heq.
Qed.

Lemma overlay_file_not_collections_file (config config' : Config) (p : string) :
  In p (overlay_files_of config) -> p <> collections_file_of config'.
Proof.
  unfold overlay_files_of, collections_file_of. simpl.
  intros [<- | [<- | [<- | [<- | []]]]].
  - now apply (join_differ _ _ "filler" "anime_episode_typ" "s.yml" "e.yml").
  - now apply (join_differ _ _ "manga_cano" "anime_episode_typ" "n.yml" "e.yml").
  - now apply (join_differ _ _ "anime_cano" "anime_episode_typ" "n.yml" "e.yml").
  - now apply (join_differ _ _ "mixe" "anime_episode_typ" "d.yml" "e.yml").
Qed.

(* ===================================================================== *)
(** ** Classification *)
(* ===================================================================== *)

Lemma classify_step_map (u : string) (cd : list (string * list string))
  (tl : trakt_list) :
  classify_step u cd tl =
  map (fun kv => (fst kv,
                  snd kv ++ if bool_decide (list_collection tl = Some (fst kv))
                            then [list_url u tl] else []))
      cd.
Proof.
  unfold classify_step, dict_append.
  destruct (list_collection tl) as [c|].
  - apply map_ext. intros [k v]. simpl.
    destruct (decide (k = c)) as [->|Hne].
    + now rewrite bool_decide_eq_true_2.
    + rewrite bool_decide_eq_false_2 by congruence. now rewrite app_nil_r.
  - rewrite <- (map_id cd) at 1. apply map_ext. intros [k v]. simpl.
    now rewrite app_nil_r.
Qed.

Lemma classify_fold (u : string) (trakt_lists : list trakt_list) :
  forall cd,
    fold_left (classify_step u) trakt_lists cd =
    map (fun kv => (fst kv, snd kv ++ urls_of u trakt_lists (fst kv))) cd.
Proof.
  induction trakt_lists as [|tl l IH]; intros cd; simpl.
  - rewrite <- (map_id cd) at 1. apply map_ext. intros [k v]. simpl.
    unfold urls_of. simpl. now rewrite app_nil_r.
  - rewrite IH, classify_step_map, map_map. apply map_ext. intros [k v].
    simpl. unfold urls_of. simpl.
    destruct (bool_decide (list_collection tl = Some k)); simpl;
      now rewrite <- app_assoc.
Qed.

Lemma classify_eq (u : string) (trakt_lists : list trakt_list) :
  classify u trakt_lists = map (fun c => (c, urls_of u trakt_lists c)) FIXED.
Proof. unfold classify. now rewrite classify_fold. Qed.

Lemma classify_keys (u : string) (trakt_lists : list trakt_list) :
  dict_keys (classify u trakt_lists) = FIXED.
Proof. now rewrite classify_eq. Qed.

Lemma classify_get (u : string) (trakt_lists : list trakt_list) (c : string) :
  dict_get (classify u trakt_lists) c =
  if bool_decide (c ∈ FIXED) then Some (urls_of u trakt_lists c) else None.
Proof.
  rewrite classify_eq. unfold FIXED. simpl.
  repeat (destruct (decide (_ = c)) as [<-|?]; [reflexivity|]).
  rewrite bool_decide_eq_false_2; [reflexivity|].
  rewrite !elem_of_cons, elem_of_nil. intuition congruence.
Qed.

(* ===================================================================== *)
(** ** Effects on the world *)
(* ===================================================================== *)

(** closes the goals on worlds that differ in the log or console only *)
Ltac same_disk :=
  unfold quiet, no_write; simpl; repeat split; reflexivity.

Lemma quiet_refl (w : world) : quiet w w.
Proof. repeat split; reflexivity. Qed.

Lemma quiet_trans (w1 w2 w3 : world) : quiet w1 w2 -> quiet w2 w3 -> quiet w1 w3.
Proof.
  intros [[Hf Hw] Hd] [[Hf' Hw'] Hd']. repeat split; try congruence.
  set_solver.
Qed.

Lemma new_files_only_refl (w w' : world) :
  w_writes w' = w_writes w -> new_files_only w w'.
Proof.
  intros H. exists []. split; [now rewrite app_nil_r | intros q []].
Qed.

Lemma grows_refl (w : world) : grows w w.
Proof.
  split; [intros p c H; exact H | split; [reflexivity|]].
  now apply new_files_only_refl.
Qed.

Lemma quiet_grows (w w' : world) : quiet w w' -> grows w w'.
Proof.
  intros [[Hf Hw] Hd]. split; [|split; [exact Hd|]].
  - intros p c H. now rewrite Hf.
  - now apply new_files_only_refl.
Qed.

Lemma exists_at_grows (w w' : world) (p : string) :
  grows w w' -> exists_at w p = true -> exists_at w' p = true.
Proof.
  intros (Hk & Hd & _). unfold exists_at, is_file.
  rewrite !orb_true_iff, !bool_decide_eq_true. intros [Hin | Hfile].
  - left. now apply Hd.
  - right. destruct (w_files w !! p) as [c|] eqn:Hc; [|discriminate].
    now rewrite (Hk p c Hc).
Qed.

Lemma grows_trans (w1 w2 w3 : world) : grows w1 w2 -> grows w2 w3 -> grows w1 w3.
Proof.
  intros H12 H23.
  pose proof H12 as (Hk & Hd & ws & Hw & Hnew).
  destruct H23 as (Hk' & Hd' & ws' & Hw' & Hnew').
  split; [|split].
  - intros p c H. apply Hk', Hk, H.
  - now transitivity (w_dirs w2).
  - exists (ws ++ ws'). split; [now rewrite Hw', Hw, app_assoc|].
    intros q Hq. apply in_app_or in Hq as [Hq | Hq]; [now apply Hnew|].
    destruct (exists_at w1 q) eqn:Hex; [|reflexivity].
    rewrite <- (Hnew' q Hq). symmetry. now apply (exists_at_grows w1 w2).
Qed.

Lemma log_quiet (l : level) (msg : string) (w : world) :
  quiet w (snd (log l msg w)).
Proof. unfold quiet, no_write. simpl. repeat split; reflexivity. Qed.

(** [ensure_directory] always returns a flag; it writes no file, and when
    the flag is [True] the path exists afterwards. *)
Lemma ensure_directory_spec (E : env) (d : string) (w : world) :
  exists b w',
    ensure_directory E d w = (Ret b, w') /\ quiet w w' /\
    w_console w' = w_console w /\
    (b = true -> exists_at w' d = true) /\
    (exists_at w d = true -> b = true /\ w' = w).
Proof.
  unfold ensure_directory, bind, path_exists, try_except, makedirs, log, ret.
  destruct (exists_at w d) eqn:Hex; simpl.
  - exists true, w. split; [reflexivity|].
    split; [apply quiet_refl|]. repeat split; auto.
  - destruct (mkdir_ok E d); simpl.
    + eexists true, _. split; [reflexivity|].
      split; [|split; [reflexivity | split; [|discriminate]]].
      * unfold quiet, no_write. simpl. repeat split; try reflexivity.
        set_solver.
      * intros _. unfold exists_at. simpl.
        rewrite bool_decide_eq_true_2; [reflexivity | set_solver].
    + eexists false, _. split; [reflexivity|].
      split; [|split; [reflexivity | split; discriminate]].
      unfold quiet, no_write. simpl. repeat split; reflexivity.
Qed.

Lemma put_file_new_grows (p : string) (c : content) (w : world) :
  exists_at w p = false -> grows w (put_file p c w).
Proof.
  intros Hex. split; [|split; [reflexivity|]].
  - intros q d Hq. simpl.
    rewrite lookup_insert_ne; [exact Hq|]. intros <-.
    unfold exists_at, is_file in Hex. rewrite Hq, orb_true_r in Hex.
    discriminate.
  - exists [p]. split; [reflexivity|]. intros q [<- | []]. exact Hex.
Qed.

(** The loop over the overlay files always returns a flag and leaves every
    file that exists alone. *)
Lemma overlay_loop_spec (E : env) (dir : string)
  (settings : list (string * yaml)) (configs : list (string * overlay_values)) :
  forall success w,
  exists b w',
    overlay_loop E dir settings configs success w = (Ret b, w') /\ grows w w'.
Proof.
  induction configs as [|[filename values] rest IH]; intros success w; simpl.
  - exists success, w. split; [reflexivity | apply grows_refl].
  - unfold bind at 1. unfold path_exists at 1.
    destruct (exists_at w (PyStr.join dir filename)) eqn:Hex.
    + apply IH.
    + unfold bind at 1. unfold try_except, bind, dump_file, log, ret.
      destruct (write_ok E (PyStr.join dir filename)).
      * destruct (IH success
                    (put_file (PyStr.join dir filename)
                       (Doc (overlay_content settings values)) w))
          as (b & w' & Hrun & Hg).
        exists b, w'. split; [exact Hrun|].
        eapply grows_trans; [|exact Hg]. now apply put_file_new_grows.
      * simpl.
        match goal with
        | |- context [overlay_loop E dir settings rest false ?w1] =>
            destruct (IH false w1) as (b & w' & Hrun & Hg)
        end.
        exists b, w'. split; [exact Hrun|].
        eapply grows_trans; [|exact Hg].
        apply quiet_grows. same_disk.
Qed.

Lemma create_anime_overlay_files_spec (E : env) (config : Config) (w : world) :
  exists b w',
    create_anime_overlay_files E config w = (Ret b, w') /\ grows w w'.
Proof.
  unfold create_anime_overlay_files, bind.
  destruct (ensure_directory_spec E (fst (get_kometa_paths config)) w)
    as (ok & w1 & -> & Hq & _).
  destruct ok; cbv beta iota delta [negb].
  - match goal with
    | |- context [overlay_loop E ?d ?s ?c true w1] =>
        destruct (overlay_loop_spec E d s c true w1) as (b & w' & Hrun & Hg)
    end.
    exists b, w'. split; [exact Hrun|].
    eapply grows_trans; [apply quiet_grows, Hq | exact Hg].
  - exists false, w1. split; [reflexivity | apply quiet_grows, Hq].
Qed.

(** Reading the existing file returns [prior_document] and touches no file. *)
Lemma load_existing_spec (E : env) (cf : string) (w : world) :
  exists w',
    load_existing E cf w = (Ret (prior_document E (w_files w) cf), w') /\
    quiet w w' /\ w_dirs w' = w_dirs w /\ w_console w' = w_console w.
Proof.
  unfold load_existing, bind, path_exists, try_except, safe_load_file,
    prior_document, log, ret.
  destruct (exists_at w cf) eqn:Hex.
  - destruct (read_ok E cf).
    + destruct (w_files w !! cf) as [[bytes|y]|]; simpl;
        eexists; (split; [reflexivity|]); repeat split; reflexivity.
    + simpl. eexists; (split; [reflexivity|]); repeat split; reflexivity.
  - assert (Hnone : w_files w !! cf = None).
    { unfold exists_at, is_file in Hex. apply orb_false_iff in Hex as [_ Hex].
      destruct (w_files w !! cf); [discriminate | reflexivity]. }
    rewrite Hnone. exists w.
    split; [now destruct (read_ok E cf)|]. repeat split; reflexivity.
Qed.


(* ===================================================================== *)
(** ** Dicts, the new collections structure and change detection *)
(* ===================================================================== *)

Lemma dict_get_set_eq {V : Type} (d : list (string * V)) (k : string) (v : V) :
  dict_get (dict_set d k v) k = Some v.
Proof.
  induction d as [|[k' v'] d IH]; simpl.
  - now rewrite decide_True.
  - destruct (decide (k' = k)) as [->|Hne]; simpl.
    + now rewrite decide_True.
    + now rewrite decide_False.
Qed.

Lemma dict_get_set_ne {V : Type} (d : list (string * V)) (k k' : string) (v : V) :
  k' <> k -> dict_get (dict_set d k v) k' = dict_get d k'.
Proof.
  intros Hne. induction d as [|[k0 v0] d IH]; simpl.
  - now rewrite decide_False by congruence.
  - destruct (decide (k0 = k)) as [->|Hne0]; simpl.
    + now rewrite !decide_False by congruence.
    + destruct (decide (k0 = k')); [reflexivity | exact IH].
Qed.


(** Whatever the prior document is, the settings made for a collection are a
    mapping whose [trakt_list] is the list of fresh URLs. *)
Lemma collection_settings_inv (existing : yaml) (c : string)
  (urls : list string) (s : yaml) :
  collection_settings existing c urls = Ret s ->
  exists m, s = YMap m /\ dict_get m "trakt_list" = Some (url_seq urls).
Proof.
  unfold collection_settings, rbind.
  destruct (has_existing existing c) as [[|]|e]; [| |discriminate].
  - destruct (Py.getitem existing "collections") as [colls|e]; [|discriminate].
    destruct (Py.getitem colls c) as [old|e]; [|discriminate].
    destruct old as [| | | |l|m]; simpl; try discriminate.
    intros [= <-]. eexists. split; [reflexivity | apply dict_get_set_eq].
  - intros [= <-]. eexists. split; reflexivity.
Qed.

(** When the prior document has settings for the collection, they are copied
    and only [trakt_list] is assigned. *)
Lemma collection_settings_existing (existing : yaml)
  (colls old : list (string * yaml)) (c : string) (urls : list string) :
  collections_of existing = Some colls ->
  entry_of colls c = Some old ->
  collection_settings existing c urls
  = Ret (YMap (dict_set old "trakt_list" (url_seq urls))).
Proof.
  unfold collections_of, entry_of. intros Hcolls Hold.
  destruct existing as [| | | | |top]; try discriminate.
  destruct (dict_get top "collections") as [[| | | | |colls']|] eqn:Htop;
    try discriminate.
  injection Hcolls as ->.
  destruct (dict_get colls c) as [[| | | | |old']|] eqn:Hc; try discriminate.
  injection Hold as ->.
  unfold collection_settings, has_existing, rbind. simpl.
  destruct top as [|kv top]; [discriminate|].
  unfold dict_has. simpl in Htop |- *. rewrite Htop. simpl.
  unfold dict_has. rewrite Hc. reflexivity.
Qed.

(** When the prior document has no entry under the name, the default
    settings are used. *)
Lemma collection_settings_default (existing : yaml)
  (colls : list (string * yaml)) (c : string) (urls : list string) :
  collections_of existing = Some colls ->
  dict_get colls c = None ->
  collection_settings existing c urls = Ret (default_settings c urls).
Proof.
  unfold collections_of. intros Hcolls Hnone.
  destruct existing as [| | | | |top]; try discriminate.
  destruct (dict_get top "collections") as [[| | | | |colls']|] eqn:Htop;
    try discriminate.
  injection Hcolls as ->.
  unfold collection_settings, has_existing, rbind. simpl.
  destruct top as [|kv top]; [discriminate|].
  unfold dict_has. simpl in Htop |- *. rewrite Htop. simpl.
  unfold dict_has. rewrite Hnone. reflexivity.
Qed.

(** The new document always has the four fixed collections, in their order,
    each with the settings [collection_settings] makes for it. *)
Lemma new_collections_inv (existing : yaml) (u : string)
  (trakt_lists : list trakt_list) (doc : yaml) :
  new_collections existing (classify u trakt_lists) = Ret doc ->
  exists s1 s2 s3 s4,
    collection_settings existing "Fillers"
      (urls_of u trakt_lists "Fillers") = Ret s1 /\
    collection_settings existing "Manga Canon"
      (urls_of u trakt_lists "Manga Canon") = Ret s2 /\
    collection_settings existing "Anime Canon"
      (urls_of u trakt_lists "Anime Canon") = Ret s3 /\
    collection_settings existing "Mixed Canon/Filler"
      (urls_of u trakt_lists "Mixed Canon/Filler") = Ret s4 /\
    doc = YMap [("collections",
                 YMap [("Fillers", s1); ("Manga Canon", s2);
                       ("Anime Canon", s3); ("Mixed Canon/Filler", s4)])].
Proof.
  rewrite classify_eq. unfold new_collections, FIXED.
  cbn [map build_loop].
  destruct (collection_settings existing "Fillers" _) as [s1|e];
    [|discriminate].
  cbn [rbind].
  destruct (collection_settings existing "Manga Canon" _) as [s2|e];
    [|discriminate].
  cbn [rbind].
  destruct (collection_settings existing "Anime Canon" _) as [s3|e];
    [|discriminate].
  cbn [rbind].
  destruct (collection_settings existing "Mixed Canon/Filler" _) as [s4|e];
    [|discriminate].
  cbn [rbind]. intros [= <-]. exists s1, s2, s3, s4.
  repeat split; reflexivity.
Qed.

Lemma set_eq_same (urls : list string) :
  Py.set_eq (map YStr urls) urls = true.
Proof.
  unfold Py.set_eq. apply andb_true_intro. split.
  - apply forallb_forall. intros y Hy. apply in_map_iff in Hy as (s & <- & Hs).
    simpl. apply bool_decide_eq_true_2. now apply list_elem_of_In.
  - apply forallb_forall. intros s Hs. apply existsb_exists.
    exists (YStr s). split; [now apply in_map | simpl].
    now apply bool_decide_eq_true_2.
Qed.

Lemma set_of_url_seq (urls : list string) :
  Py.set_of (url_seq urls) = Ret (map YStr urls).
Proof.
  unfold url_seq. simpl.
  replace (forallb Py.hashable (map YStr urls)) with true; [reflexivity|].
  symmetry. apply forallb_forall. intros y Hy.
  apply in_map_iff in Hy as (s & <- & _). reflexivity.
Qed.

(** One turn of the detection loop, on a world. *)
Lemma detect_loop_cons (c : string) (data : yaml)
  (rest : list (string * yaml)) (cd : list (string * list string))
  (flag : bool) (w : world) :
  detect_loop ((c, data) :: rest) cd flag w =
  match Py.get data "trakt_list" (YSeq []) with
  | Raise e => (Raise e, w)
  | Ret tl =>
      match Py.set_of tl with
      | Raise e => (Raise e, w)
      | Ret existing =>
          match dict_get cd c with
          | Some new =>
              if negb (Py.set_eq existing new)
              then (Ret true,
                    snd (log INFO ("Changes detected in " +:+ c
                                   +:+ " collection") w))
              else detect_loop rest cd flag w
          | None => detect_loop rest cd flag w
          end
      end
  end.
Proof.
  simpl. unfold bind at 1. unfold lift at 1.
  destruct (Py.get data "trakt_list" (YSeq [])) as [tl|e]; [|reflexivity].
  unfold bind at 1. unfold lift at 1.
  destruct (Py.set_of tl) as [existing|e]; [|reflexivity].
  destruct (dict_get cd c) as [new|]; [|reflexivity].
  destruct (negb (Py.set_eq existing new)); reflexivity.
Qed.

(** An entry whose [trakt_list] is the fresh list of its collection lets the
    detection loop go on. *)
Lemma detect_loop_same (c : string) (m : list (string * yaml))
  (urls : list string) (rest : list (string * yaml))
  (cd : list (string * list string)) (flag : bool) (w : world) :
  dict_get m "trakt_list" = Some (url_seq urls) ->
  dict_get cd c = Some urls ->
  detect_loop ((c, YMap m) :: rest) cd flag w = detect_loop rest cd flag w.
Proof.
  intros Hm Hc. rewrite detect_loop_cons. cbn [Py.get]. rewrite Hm.
  now rewrite set_of_url_seq, Hc, set_eq_same.
Qed.

Lemma detect_loop_quiet (items : list (string * yaml))
  (cd : list (string * list string)) (flag : bool) (w : world) :
  forall r w', detect_loop items cd flag w = (r, w') ->
    quiet w w' /\ w_dirs w' = w_dirs w /\ w_console w' = w_console w.
Proof.
  induction items as [|[name data] rest IH]; intros r w' Hrun.
  - injection Hrun as _ <-. same_disk.
  - rewrite detect_loop_cons in Hrun.
    destruct (Py.get data "trakt_list" (YSeq [])) as [tl|e].
    2:{ injection Hrun as _ <-. same_disk. }
    destruct (Py.set_of tl) as [existing|e].
    2:{ injection Hrun as _ <-. same_disk. }
    destruct (dict_get cd name) as [new|]; [|now apply IH in Hrun].
    destruct (negb (Py.set_eq existing new)); [|now apply IH in Hrun].
    injection Hrun as _ <-. same_disk.
Qed.

Lemma detect_changes_quiet (force : bool) (existing : yaml)
  (cd : list (string * list string)) (w : world) :
  forall r w', detect_changes force existing cd w = (r, w') ->
    quiet w w' /\ w_dirs w' = w_dirs w /\ w_console w' = w_console w.
Proof.
  intros r w' Hrun. unfold detect_changes in Hrun.
  destruct (negb force && Py.truthy existing).
  - unfold bind at 1 in Hrun. unfold lift at 1 in Hrun.
    destruct (Py.get existing "collections" (YMap [])) as [colls|e].
    2:{ injection Hrun as _ <-. same_disk. }
    unfold bind at 1 in Hrun. unfold lift at 1 in Hrun.
    destruct (Py.items colls) as [items|e].
    2:{ injection Hrun as _ <-. same_disk. }
    now apply detect_loop_quiet in Hrun.
  - injection Hrun as _ <-. same_disk.
Qed.

(* ===================================================================== *)
(** ** The two halves of the sync *)
(* ===================================================================== *)

Lemma falsy_some (s : string) : s <> "" -> falsy (Some s) = false.
Proof.
  intros Hne. unfold falsy. destruct (String.eqb_spec s ""); congruence.
Qed.

Lemma or_default_some (s d : string) : s <> "" -> or_default (Some s) d = s.
Proof.
  intros Hne. unfold or_default. destruct (String.eqb_spec s ""); congruence.
Qed.

Lemma falsy_false (o : option string) :
  falsy o = false -> exists s, o = Some s /\ s <> "".
Proof.
  destruct o as [s|]; simpl; [|discriminate].
  destruct (String.eqb_spec s ""); [discriminate|]. now exists s.
Qed.

(** Once the directory is there and the remote answer is in, the sync is
    its second half. *)
Lemma sync_fetched (E : env) (config : Config) (force : bool) (u : string)
  (trakt_lists : list trakt_list) (w w1 : world) :
  fetched E config u trakt_lists ->
  ensure_directory E (snd (get_kometa_paths config)) w = (Ret true, w1) ->
  sync_anime_episode_collections E config force w =
  merge_collections E config force u trakt_lists w1.
Proof.
  intros (Hu & Hne & tok & Hauth & Htok & Hget) Hdir.
  unfold sync_anime_episode_collections. unfold bind at 1. rewrite Hdir.
  cbv beta iota delta [negb]. rewrite Hu, (falsy_some u Hne).
  rewrite (or_default_some u "" Hne).
  unfold bind at 1. unfold lift at 1. rewrite Hauth.
  rewrite (falsy_some tok Htok), (or_default_some tok "" Htok).
  unfold bind at 1. unfold lift at 1. rewrite Hget.
  cbv beta iota delta [status_code json_body negb Z.eqb Pos.eqb].
  unfold bind at 1. unfold lift at 1. reflexivity.
Qed.

(** A sync either leaves before its second half, without a write and
    without returning [True], or runs its second half on the remote answer. *)
Lemma sync_inv (E : env) (config : Config) (force : bool) (w : world)
  (r : result bool) (w' : world) :
  sync_anime_episode_collections E config force w = (r, w') ->
  (quiet w w' /\ r <> Ret true) \/
  (exists u trakt_lists w1,
      fetched E config u trakt_lists /\
      ensure_directory E (snd (get_kometa_paths config)) w = (Ret true, w1) /\
      merge_collections E config force u trakt_lists w1 = (r, w')).
Proof.
  intros Hrun.
  destruct (ensure_directory_spec E (snd (get_kometa_paths config)) w)
    as (ok & w1 & Hdir & Hq & _).
  unfold sync_anime_episode_collections in Hrun. unfold bind at 1 in Hrun.
  rewrite Hdir in Hrun. destruct ok; cbv beta iota delta [negb] in Hrun.
  2:{ injection Hrun as <- <-. left. split; [exact Hq | discriminate]. }
  destruct (falsy (trakt_username config)) eqn:Hu.
  { unfold bind, log, ret in Hrun. injection Hrun as <- <-. left.
    split; [|discriminate]. eapply quiet_trans; [exact Hq | same_disk]. }
  apply falsy_false in Hu as (u & Hu & Hune).
  rewrite Hu, (or_default_some u "" Hune) in Hrun.
  unfold bind at 1 in Hrun. unfold lift at 1 in Hrun.
  destruct (ensure_trakt_auth E) as [token|e] eqn:Hauth.
  2:{ injection Hrun as <- <-. left. split; [exact Hq | discriminate]. }
  destruct (falsy token) eqn:Htok.
  { unfold bind, log, ret in Hrun. injection Hrun as <- <-. left.
    split; [|discriminate]. eapply quiet_trans; [exact Hq | same_disk]. }
  apply falsy_false in Htok as (tok & -> & Htokne).
  rewrite (or_default_some tok "" Htokne) in Hrun.
  unfold bind at 1 in Hrun. unfold lift at 1 in Hrun.
  destruct (requests_get E (lists_url_of u) tok) as [[status body]|e] eqn:Hget.
  2:{ injection Hrun as <- <-. left. split; [exact Hq | discriminate]. }
  cbv beta iota delta [status_code json_body] in Hrun.
  destruct (Z.eqb_spec status 200) as [->|Hstatus];
    cbv beta iota delta [negb] in Hrun.
  2:{ unfold bind, log, ret in Hrun. injection Hrun as <- <-. left.
      split; [|discriminate]. eapply quiet_trans; [exact Hq | same_disk]. }
  unfold bind at 1 in Hrun. unfold lift at 1 in Hrun.
  destruct body as [trakt_lists|].
  2:{ injection Hrun as <- <-. left. split; [exact Hq | discriminate]. }
  right. exists u, trakt_lists, w1. split; [|split; [exact Hdir | exact Hrun]].
  repeat split; try assumption. exists tok. repeat split; assumption.
Qed.

(** The second half either writes nothing, or builds the new document from
    [prior_document] and the classification, writes it and runs the overlay
    emitter, and returns [True]. *)
Lemma merge_inv (E : env) (config : Config) (force : bool) (u : string)
  (trakt_lists : list trakt_list) (w : world) (r : result bool) (w' : world) :
  merge_collections E config force u trakt_lists w = (r, w') ->
  let cf := collections_file_of config in
  let existing := prior_document E (w_files w) cf in
  (quiet w w' /\ w_dirs w' = w_dirs w) \/
  (exists doc wa b,
      quiet w wa /\ w_dirs wa = w_dirs w /\
      (exists wd wd', detect_changes force existing (classify u trakt_lists) wd
                      = (Ret true, wd')) /\
      new_collections existing (classify u trakt_lists) = Ret doc /\
      create_anime_overlay_files E config (put_file cf (Doc doc) wa)
      = (Ret b, w') /\
      r = Ret true).
Proof.
  intros Hrun cf existing. unfold merge_collections in Hrun.
  fold (collections_file_of config) in Hrun. fold cf in Hrun.
  unfold bind at 1 in Hrun.
  destruct (load_existing_spec E cf w) as (w1 & Hload & Hq1 & Hd1 & _).
  rewrite Hload in Hrun. fold existing in Hrun.
  unfold bind at 1 in Hrun.
  destruct (detect_changes force existing (classify u trakt_lists) w1)
    as [[changes|e] w2] eqn:Hdet.
  2:{ injection Hrun as <- <-. left.
      apply detect_changes_quiet in Hdet as (Hq2 & Hd2 & _).
      split; [eapply quiet_trans; eassumption | congruence]. }
  pose proof (detect_changes_quiet _ _ _ _ _ _ Hdet) as (Hq2 & Hd2 & _).
  destruct changes.
  2:{ unfold bind, log, ret in Hrun. injection Hrun as <- <-. left. split.
      - eapply quiet_trans; [exact Hq1|].
        eapply quiet_trans; [exact Hq2 | same_disk].
      - simpl. congruence. }
  unfold bind at 1 in Hrun. unfold lift at 1 in Hrun.
  destruct (new_collections existing (classify u trakt_lists)) as [doc|e] eqn:Hnew.
  2:{ injection Hrun as <- <-. left.
      split; [eapply quiet_trans; eassumption | congruence]. }
  unfold try_except in Hrun. unfold bind at 1 in Hrun.
  unfold dump_file at 1 in Hrun.
  destruct (write_ok E cf).
  2:{ unfold bind, log, ret in Hrun. injection Hrun as <- <-. left. split.
      - eapply quiet_trans; [exact Hq1|].
        eapply quiet_trans; [exact Hq2 | same_disk].
      - simpl. congruence. }
  unfold bind at 1 in Hrun.
  destruct (create_anime_overlay_files_spec E config (put_file cf (Doc doc) w2))
    as (b & w3 & Hov & Hg).
  rewrite Hov in Hrun. unfold ret in Hrun. injection Hrun as <- <-.
  right. exists doc, w2, b.
  split; [eapply quiet_trans; eassumption|].
  split; [congruence|].
  split; [eauto|]. auto.
Qed.

(* ===================================================================== *)
(** ** A sync that rewrites, a sync that does not *)
(* ===================================================================== *)

Lemma written_between_same (w w' : world) :
  w_writes w' = w_writes w -> written_between w w' = [].
Proof. intros H. unfold written_between. rewrite H. apply drop_all. Qed.

Lemma exists_at_put_file (w : world) (p q : string) (c : content) :
  exists_at w p = true -> exists_at (put_file q c w) p = true.
Proof.
  unfold exists_at, is_file. simpl. rewrite !orb_true_iff.
  intros [Hd | Hf]; [now left | right].
  destruct (decide (q = p)) as [->|Hne].
  - now rewrite lookup_insert_eq.
  - now rewrite lookup_insert_ne.
Qed.

Lemma prior_document_truthy (E : env) (files : gmap string content)
  (cf : string) :
  Py.truthy (prior_document E files cf) = true.
Proof.
  unfold prior_document. destruct (read_ok E cf); [|reflexivity].
  destruct (files !! cf) as [[bytes|y]|]; try reflexivity.
  destruct (Py.truthy y) eqn:Hy; [exact Hy | reflexivity].
Qed.

(** A sync that wrote the collections file fetched the remote lists, built
    the new document from the prior one, left it in the file and returned
    [True]; the collections directory exists afterwards. *)
Lemma sync_rewrite_inv (E : env) (config : Config) (force : bool)
  (w : world) (r : result bool) (w' : world) :
  sync_anime_episode_collections E config force w = (r, w') ->
  In (collections_file_of config) (written_between w w') ->
  exists u trakt_lists doc,
    fetched E config u trakt_lists /\
    new_collections
      (prior_document E (w_files w) (collections_file_of config))
      (classify u trakt_lists) = Ret doc /\
    w_files w' !! collections_file_of config = Some (Doc doc) /\
    (forall p c, p <> collections_file_of config ->
                 w_files w !! p = Some c -> w_files w' !! p = Some c) /\
    exists_at w' (snd (get_kometa_paths config)) = true /\
    r = Ret true.
Proof.
  intros Hrun Hin.
  apply sync_inv in Hrun as [[[[_ Hw] _] _] | (u & ls & w1 & Hf & Hdir & Hrun)].
  { rewrite written_between_same in Hin by exact Hw. destruct Hin. }
  destruct (ensure_directory_spec E (snd (get_kometa_paths config)) w)
    as (ok & w1' & Hdir' & Hq & _ & Hex & _).
  rewrite Hdir in Hdir'. injection Hdir' as <- <-.
  specialize (Hex eq_refl).
  apply merge_inv in Hrun
    as [[[[_ Hw] _] _] | (doc & wa & b & Hqa & _ & _ & Hnew & Hov & ->)].
  { destruct Hq as [[_ Hw1] _].
    rewrite written_between_same in Hin by congruence. destruct Hin. }
  destruct (create_anime_overlay_files_spec E config
              (put_file (collections_file_of config) (Doc doc) wa))
    as (b' & w'' & Hov' & Hg).
  rewrite Hov in Hov'. injection Hov' as <- <-.
  assert (Hfiles : w_files wa = w_files w).
  { destruct Hq as [[? _] _], Hqa as [[? _] _]. congruence. }
  exists u, ls, doc. split; [exact Hf|].
  split; [destruct Hq as [[<- _] _]; exact Hnew|].
  split; [apply (proj1 Hg); simpl; apply lookup_insert_eq|].
  split.
  - intros p c Hne Hp. apply (proj1 Hg). simpl.
    rewrite lookup_insert_ne by congruence.
    now rewrite Hfiles.
  - split; [|reflexivity].
    eapply exists_at_grows; [exact Hg|]. apply exists_at_put_file.
    eapply exists_at_grows; [apply quiet_grows, Hqa | exact Hex].
Qed.

(** When detection finds no change, the second half of an unforced sync
    writes nothing and returns [True]. *)
Lemma merge_no_change (E : env) (config : Config) (u : string)
  (trakt_lists : list trakt_list) (w : world) :
  (forall wx,
      detect_changes false
        (prior_document E (w_files w) (collections_file_of config))
        (classify u trakt_lists) wx = (Ret false, wx)) ->
  exists w',
    merge_collections E config false u trakt_lists w = (Ret true, w') /\
    no_write w w'.
Proof.
  intros Hdet. unfold merge_collections.
  fold (collections_file_of config). unfold bind at 1.
  destruct (load_existing_spec E (collections_file_of config) w)
    as (w1 & -> & [[Hf Hw] _] & _).
  unfold bind at 1. rewrite Hdet. unfold bind, log, ret.
  eexists. split; [reflexivity|]. split; simpl; assumption.
Qed.



(* ===================================================================== *)
(** ** The claims *)
(* ===================================================================== *)

(** C2, as stated, fails: two remote lists that yield the same URL put it
    into the collection twice; the code appends and never looks whether the
    URL is already there. *)
Lemma classify_appends_duplicate :
  dict_get (classify "alice" [Sample.naruto_filler; Sample.naruto_filler_again])
           "Fillers"
  = Some ["https://trakt.tv/users/alice/lists/naruto-filler";
          "https://trakt.tv/users/alice/lists/naruto-filler"]
  /\ ~ NoDup ["https://trakt.tv/users/alice/lists/naruto-filler";
              "https://trakt.tv/users/alice/lists/naruto-filler"].
Proof.
  split; [reflexivity|].
  intros H. apply NoDup_cons in H as [Hnotin _]. apply Hnotin. left.
Qed.

(** C2, amended: for every remote answer, each of the four collections holds
    the URLs of the remote lists classified into it, one per remote list, in
    the order of the remote answer (so a URL is there as many times as
    remote lists yield it; nothing is sorted, nothing is dropped). *)
Theorem classify_in_remote_order (u : string) (trakt_lists : list trakt_list) :
  classify u trakt_lists =
  [("Fillers", urls_of u trakt_lists "Fillers");
   ("Manga Canon", urls_of u trakt_lists "Manga Canon");
   ("Anime Canon", urls_of u trakt_lists "Anime Canon");
   ("Mixed Canon/Filler", urls_of u trakt_lists "Mixed Canon/Filler")].
Proof. apply classify_eq. Qed.

(** C6: after every sync that returns [True] and has written the collections
    file, the file holds a [collections] mapping whose keys are exactly the
    four fixed names, once each, whatever the remote answer was. *)
Theorem sync_writes_the_four_collections (E : env) (config : Config)
  (force : bool) (w w' : world) :
  sync_anime_episode_collections E config force w = (Ret true, w') ->
  In (collections_file_of config) (written_between w w') ->
  exists colls,
    w_files w' !! collections_file_of config
    = Some (Doc (YMap [("collections", YMap colls)])) /\
    dict_keys colls = FIXED.
Proof.
  intros Hrun Hin.
  destruct (sync_rewrite_inv _ _ _ _ _ _ Hrun Hin)
    as (u & ls & doc & _ & Hnew & Hfile & _).
  apply new_collections_inv in Hnew as (s1 & s2 & s3 & s4 & _ & _ & _ & _ & ->).
  eexists. split; [exact Hfile | reflexivity].
Qed.

Lemma sync_writes_the_four_collections_witness :
  exists colls,
    w_files (snd (sync_anime_episode_collections
                    (Sample.online [Sample.naruto_filler]) Sample.alice true
                    Sample.empty_world))
      !! collections_file_of Sample.alice
    = Some (Doc (YMap [("collections", YMap colls)])) /\
    dict_keys colls = FIXED.
Proof.
  apply (sync_writes_the_four_collections
           (Sample.online [Sample.naruto_filler]) Sample.alice true
           Sample.empty_world).
  - vm_compute. reflexivity.
  - vm_compute. left. reflexivity.
Defined.

(** C1, as stated, fails for an entry of the prior file whose name is not
    one of the four fixed names: a forced sync over a file in which the user
    keeps an entry [Custom] with [sync_mode: append] rewrites the file, and
    the new file has no entry [Custom] at all. *)
Lemma sync_drops_settings_of_other_entry :
  let run := sync_anime_episode_collections
               (Sample.online [Sample.naruto_filler]) Sample.alice true
               Sample.edited_world in
  fst run = Ret true /\
  In Sample.collections_file (written_between Sample.edited_world (snd run)) /\
  (exists old,
      entry_of Sample.edited_collections "Custom" = Some old /\
      dict_get old "sync_mode" = Some (YStr "append")) /\
  (exists doc colls,
      w_files (snd run) !! Sample.collections_file = Some (Doc doc) /\
      collections_of doc = Some colls /\
      dict_get colls "Custom" = None).
Proof.
  vm_compute. split; [reflexivity|]. split; [left; reflexivity|].
  split; eexists; [|eexists]; repeat split; reflexivity.
Qed.

(** C1, amended: for every prior collections file that the sync reads, and
    every entry of it under one of the four fixed names, a sync that rewrites
    the file stores under that name the settings of the prior entry, every
    key other than [trakt_list] with its value unchanged, and [trakt_list]
    set to the URLs freshly classified into that collection. *)
Theorem sync_preserves_settings (E : env) (config : Config) (force : bool)
  (w w' : world) (r : result bool) (prior : yaml)
  (colls old : list (string * yaml)) (c : string) :
  sync_anime_episode_collections E config force w = (r, w') ->
  In (collections_file_of config) (written_between w w') ->
  read_ok E (collections_file_of config) = true ->
  w_files w !! collections_file_of config = Some (Doc prior) ->
  collections_of prior = Some colls ->
  entry_of colls c = Some old ->
  In c FIXED ->
  exists u trakt_lists doc colls' new,
    fetched E config u trakt_lists /\
    w_files w' !! collections_file_of config = Some (Doc doc) /\
    collections_of doc = Some colls' /\
    entry_of colls' c = Some new /\
    (forall k, k <> "trakt_list" -> dict_get new k = dict_get old k) /\
    dict_get new "trakt_list" = Some (url_seq (urls_of u trakt_lists c)).
Proof.
  intros Hrun Hin Hread Hprior Hcolls Hold Hc.
  destruct (sync_rewrite_inv _ _ _ _ _ _ Hrun Hin)
    as (u & ls & doc & Hf & Hnew & Hfile & _).
  assert (Hdoc : prior_document E (w_files w) (collections_file_of config)
                 = prior).
  { unfold prior_document. rewrite Hread, Hprior.
    unfold collections_of in Hcolls.
    destruct prior as [| | | | |[|kv top]]; try discriminate. reflexivity. }
  rewrite Hdoc in Hnew.
  apply new_collections_inv in Hnew as (s1 & s2 & s3 & s4 & H1 & H2 & H3 & H4 & ->).
  exists u, ls. eexists. eexists.
  exists (dict_set old "trakt_list" (url_seq (urls_of u ls c))).
  split; [exact Hf|]. split; [exact Hfile|]. split; [reflexivity|].
  split.
  - unfold FIXED in Hc. simpl in Hc.
    destruct Hc as [<- | [<- | [<- | [<- | []]]]].
    + rewrite (collection_settings_existing _ _ _ _ _ Hcolls Hold) in H1.
      injection H1 as <-. reflexivity.
    + rewrite (collection_settings_existing _ _ _ _ _ Hcolls Hold) in H2.
      injection H2 as <-. reflexivity.
    + rewrite (collection_settings_existing _ _ _ _ _ Hcolls Hold) in H3.
      injection H3 as <-. reflexivity.
    + rewrite (collection_settings_existing _ _ _ _ _ Hcolls Hold) in H4.
      injection H4 as <-. reflexivity.
  - split; [|apply dict_get_set_eq].
    intros k Hk. now apply dict_get_set_ne.
Qed.

Lemma sync_preserves_settings_witness :
  exists u trakt_lists doc colls' new,
    fetched (Sample.online [Sample.naruto_filler]) Sample.alice u trakt_lists /\
    w_files (snd (sync_anime_episode_collections
                    (Sample.online [Sample.naruto_filler]) Sample.alice false
                    Sample.edited_world))
      !! collections_file_of Sample.alice = Some (Doc doc) /\
    collections_of doc = Some colls' /\
    entry_of colls' "Fillers" = Some new /\
    (forall k, k <> "trakt_list" ->
               dict_get new k
               = dict_get [("trakt_list",
                            YSeq [YStr "https://trakt.tv/users/alice/lists/old"]);
                           ("sync_mode", YStr "append");
                           ("item_label", YStr "Fillers")] k) /\
    dict_get new "trakt_list" = Some (url_seq (urls_of u trakt_lists "Fillers")).
Proof.
  apply (sync_preserves_settings
           (Sample.online [Sample.naruto_filler]) Sample.alice false
           Sample.edited_world _ (Ret true)
           (YMap [("collections", YMap Sample.edited_collections)])
           Sample.edited_collections).
  - vm_compute. reflexivity.
  - vm_compute. left. reflexivity.
  - reflexivity.
  - vm_compute. reflexivity.
  - reflexivity.
  - reflexivity.
  - simpl. left. reflexivity.
Defined.

(** C4: when a sync has returned [True] and written the collections file,
    a second sync with [force_update=False], the same configuration and the
    same answers of the collaborators returns [True] and writes nothing. *)
Theorem sync_twice_writes_once (E : env) (config : Config) (force : bool)
  (w w1 : world) :
  sync_anime_episode_collections E config force w = (Ret true, w1) ->
  In (collections_file_of config) (written_between w w1) ->
  exists w2,
    sync_anime_episode_collections E config false w1 = (Ret true, w2) /\
    w_writes w2 = w_writes w1 /\ w_files w2 = w_files w1.
Proof.
  intros Hrun Hin.
  destruct (sync_rewrite_inv _ _ _ _ _ _ Hrun Hin)
    as (u & ls & doc & Hf & Hnew & Hfile & _ & Hex & _).
  destruct (ensure_directory_spec E (snd (get_kometa_paths config)) w1)
    as (ok & w1' & Hdir & _ & _ & _ & Hsame).
  destruct (Hsame Hex) as [-> ->].
  rewrite (sync_fetched E config false u ls w1 w1 Hf Hdir).
  destruct (merge_no_change E config u ls w1) as (w2 & Hmerge & Hf2 & Hw2).
  - intros wx. unfold prior_document. rewrite Hfile.
    apply new_collections_inv in Hnew
      as (s1 & s2 & s3 & s4 & H1 & H2 & H3 & H4 & ->).
    destruct (read_ok E (collections_file_of config)); [|reflexivity].
    apply collection_settings_inv in H1 as (m1 & -> & H1).
    apply collection_settings_inv in H2 as (m2 & -> & H2).
    apply collection_settings_inv in H3 as (m3 & -> & H3).
    apply collection_settings_inv in H4 as (m4 & -> & H4).
    unfold detect_changes. cbn [negb andb Py.truthy].
    unfold bind at 1. unfold lift at 1. cbn [Py.get dict_get].
    rewrite decide_True by reflexivity.
    unfold bind at 1. unfold lift at 1. cbn [Py.items].
    rewrite (detect_loop_same _ _ _ _ _ _ _ H1)
      by (rewrite classify_get; reflexivity).
    rewrite (detect_loop_same _ _ _ _ _ _ _ H2)
      by (rewrite classify_get; reflexivity).
    rewrite (detect_loop_same _ _ _ _ _ _ _ H3)
      by (rewrite classify_get; reflexivity).
    rewrite (detect_loop_same _ _ _ _ _ _ _ H4)
      by (rewrite classify_get; reflexivity).
    reflexivity.
  - exists w2. split; [exact Hmerge | split; assumption].
Qed.

Lemma sync_twice_writes_once_witness :
  exists w2,
    sync_anime_episode_collections
      (Sample.online [Sample.naruto_filler; Sample.naruto_manga]) Sample.alice
      false
      (snd (sync_anime_episode_collections
              (Sample.online [Sample.naruto_filler; Sample.naruto_manga])
              Sample.alice true Sample.empty_world))
    = (Ret true, w2) /\
    w_writes w2
    = w_writes (snd (sync_anime_episode_collections
                       (Sample.online [Sample.naruto_filler; Sample.naruto_manga])
                       Sample.alice true Sample.empty_world)) /\
    w_files w2
    = w_files (snd (sync_anime_episode_collections
                      (Sample.online [Sample.naruto_filler; Sample.naruto_manga])
                      Sample.alice true Sample.empty_world)).
Proof.
  apply (sync_twice_writes_once
           (Sample.online [Sample.naruto_filler; Sample.naruto_manga])
           Sample.alice true Sample.empty_world).
  - vm_compute. reflexivity.
  - vm_compute. left. reflexivity.
Defined.





(** ** Overlay files are written once *)

Lemma untouched_refl (w : world) (p : string) (c : content) :
  w_files w !! p = Some c -> untouched p c w w.
Proof.
  intros Hp. split; [exact Hp|]. exists []. split; [now rewrite app_nil_r | tauto].
Qed.

Lemma untouched_trans (w1 w2 w3 : world) (p : string) (c : content) :
  untouched p c w1 w2 -> untouched p c w2 w3 -> untouched p c w1 w3.
Proof.
  intros (_ & ws & Hw & Hnot) (Hp & ws' & Hw' & Hnot').
  split; [exact Hp|]. exists (ws ++ ws').
  split; [now rewrite Hw', Hw, app_assoc|].
  intros Hin. apply in_app_or in Hin. tauto.
Qed.

Lemma grows_untouched (w w' : world) (p : string) (c : content) :
  grows w w' -> w_files w !! p = Some c -> untouched p c w w'.
Proof.
  intros (Hk & _ & ws & Hw & Hnew) Hp. split; [now apply Hk|].
  exists ws. split; [exact Hw|]. intros Hin. apply Hnew in Hin.
  unfold exists_at, is_file in Hin. rewrite Hp, orb_true_r in Hin.
  discriminate.
Qed.

Lemma quiet_untouched (w w' : world) (p : string) (c : content) :
  quiet w w' -> w_files w !! p = Some c -> untouched p c w w'.
Proof. intros Hq. apply grows_untouched. now apply quiet_grows. Qed.

Lemma sync_keeps_other_files (E : env) (config : Config) (force : bool)
  (w : world) (p : string) (c : content) :
  p <> collections_file_of config ->
  w_files w !! p = Some c ->
  untouched p c w (snd (sync_anime_episode_collections E config force w)).
Proof.
  intros Hne Hp.
  destruct (sync_anime_episode_collections E config force w) as [r w'] eqn:Hrun.
  simpl.
  apply sync_inv in Hrun as [[Hq _] | (u & ls & w1 & _ & Hdir & Hrun)].
  { now apply quiet_untouched. }
  destruct (ensure_directory_spec E (snd (get_kometa_paths config)) w)
    as (ok & w1' & Hdir' & Hq1 & _).
  rewrite Hdir in Hdir'. injection Hdir' as <- <-.
  apply merge_inv in Hrun
    as [[Hq _] | (doc & wa & b & Hqa & _ & _ & _ & Hov & _)].
  { apply quiet_untouched; [|exact Hp]. eapply quiet_trans; eassumption. }
  destruct (create_anime_overlay_files_spec E config
              (put_file (collections_file_of config) (Doc doc) wa))
    as (b' & w'' & Hov' & Hg).
  rewrite Hov in Hov'. injection Hov' as <- <-.
  assert (Hwa : untouched p c w wa).
  { apply quiet_untouched; [|exact Hp]. eapply quiet_trans; eassumption. }
  eapply untouched_trans; [exact Hwa|].
  assert (Hput : untouched p c wa
                   (put_file (collections_file_of config) (Doc doc) wa)).
  { split.
    - simpl. rewrite lookup_insert_ne by congruence. apply Hwa.
    - exists [collections_file_of config]. split; [reflexivity|].
      intros [Heq | []]. congruence. }
  eapply untouched_trans; [exact Hput|].
  apply grows_untouched; [exact Hg | apply Hput].
Qed.

(** C7: an overlay file that exists, whatever it holds, holds the same after
    any sequence of calls of the overlay emitter and of the sync, whatever
    the collaborators answer and whatever configuration each call is given;
    none of the calls writes to it. *)
Theorem existing_overlay_file_is_kept (config : Config) (p : string)
  (c : content) (calls : list call) (w : world) :
  In p (overlay_files_of config) ->
  w_files w !! p = Some c ->
  w_files (run_calls calls w) !! p = Some c /\
  ~ In p (written_between w (run_calls calls w)).
Proof.
  intros Hp Hfile.
  assert (Hrun : untouched p c w (run_calls calls w)).
  { assert (Hstart : untouched p c w w) by now apply untouched_refl.
    unfold run_calls. revert Hstart. generalize w at 2 4 as wi.
    induction calls as [|call calls IH]; intros wi Hwi; [exact Hwi|].
    simpl. apply IH. eapply untouched_trans; [exact Hwi|].
    destruct Hwi as [Hpi _].
    destruct call as [E config' | E config' force]; simpl.
    - destruct (create_anime_overlay_files_spec E config' wi)
        as (b & w' & -> & Hg).
      now apply grows_untouched.
    - apply sync_keeps_other_files; [|exact Hpi].
      now apply (overlay_file_not_collections_file config config'). }
  destruct Hrun as (Hkept & ws & Hw & Hnot). split; [exact Hkept|].
  unfold written_between. now rewrite Hw, drop_app_length.
Qed.

Lemma existing_overlay_file_is_kept_witness :
  w_files
    (run_calls
       [CallOverlays (Sample.online []) Sample.alice;
        CallSync (Sample.online [Sample.naruto_filler]) Sample.alice true;
        CallOverlays (Sample.online []) Sample.alice;
        CallSync Sample.network_down Sample.alice false]
       Sample.overlay_world)
    !! Sample.fillers_overlay
  = Some (Raw "# my own overlay") /\
  ~ In Sample.fillers_overlay
      (written_between Sample.overlay_world
         (run_calls
            [CallOverlays (Sample.online []) Sample.alice;
             CallSync (Sample.online [Sample.naruto_filler]) Sample.alice true;
             CallOverlays (Sample.online []) Sample.alice;
             CallSync Sample.network_down Sample.alice false]
            Sample.overlay_world)).
Proof.
  apply (existing_overlay_file_is_kept Sample.alice).
  - simpl. left. reflexivity.
  - vm_compute. reflexivity.
Defined.

(** ** Asset provisioning *)




(** The copy of an asset always returns a flag: what the copy raises is
    caught. *)
Lemma copy_asset_returns (E : env) (source destination : string) (w : world) :
  exists b w', copy_asset E source destination w = (Ret b, w').
Proof.
  unfold copy_asset, try_except. unfold bind at 1.
  destruct (ensure_directory_spec E (PyStr.dirname destination) w)
    as (ok & w1 & -> & _).
  destruct ok; cbv beta iota delta [negb]; [|now eexists _, _].
  unfold bind, copy2, log, ret.
  destruct (w_files w1 !! source); [|now eexists _, _].
  destruct (write_ok E destination); now eexists _, _.
Qed.


Lemma setup_fonts_returns (E : env) (config : Config) (w : world) :
  exists b config' w', setup_fonts E config w = (Ret (b, config'), w').
Proof.
  unfold setup_fonts. unfold bind at 1.
  destruct (ensure_directory_spec E (fonts_dir_of config) w)
    as (ok & w1 & Hdir & _).
  fold (fonts_dir_of config). rewrite Hdir.
  destruct ok; cbv beta iota delta [negb]; [|now eexists _, _, _].
  unfold bind at 1. unfold path_exists.
  destruct (exists_at w1 _).
  - unfold bind at 1.
    match goal with
    | |- context [copy_asset E ?s ?d w1] =>
        destruct (copy_asset_returns E s d w1) as (b & w2 & ->)
    end.
    destruct b; [|now eexists _, _, _].
    destruct (tv_block config); unfold bind, log, ret; now eexists _, _, _.
  - unfold bind, log, ret. now eexists _, _, _.
Qed.




(** ** Exceptions of the HTTP call *)

(** What [requests.get] raises, the sync raises: nothing catches it. *)
Lemma sync_raises_what_http_raises (E : env) (config : Config) (force : bool)
  (w w1 : world) (u tok : string) (e : exn) :
  ensure_directory E (snd (get_kometa_paths config)) w = (Ret true, w1) ->
  trakt_username config = Some u -> u <> "" ->
  ensure_trakt_auth E = Ret (Some tok) -> tok <> "" ->
  requests_get E (lists_url_of u) tok = Raise e ->
  sync_anime_episode_collections E config force w = (Raise e, w1).
Proof.
  intros Hdir Hu Hune Hauth Htok Hget.
  unfold sync_anime_episode_collections. unfold bind at 1. rewrite Hdir.
  cbv beta iota delta [negb]. rewrite Hu, (falsy_some u Hune).
  rewrite (or_default_some u "" Hune).
  unfold bind at 1. unfold lift at 1. rewrite Hauth.
  rewrite (falsy_some tok Htok), (or_default_some tok "" Htok).
  unfold bind at 1. unfold lift at 1. now rewrite Hget.
Qed.

(** C3, the code at the failing inputs: with the network down the sync ends
    in the [ConnectionError] of the HTTP call, and with a body that does not
    decode in the [JSONDecodeError] of [response.json()]; it returns no
    boolean. *)
Theorem sync_lets_http_exceptions_through :
  fst (sync_anime_episode_collections Sample.network_down Sample.alice false
         Sample.empty_world) = Raise ConnectionError /\
  fst (sync_anime_episode_collections Sample.bad_body Sample.alice false
         Sample.empty_world) = Raise JSONDecodeError.
Proof. vm_compute. split; reflexivity. Qed.

(** When [setup_assets] returns, it returns [True]. *)
Lemma setup_assets_returns_true (E : env) (config : Config) (w w' : world)
  (b : bool) :
  setup_assets E config w = (Ret b, w') -> b = true.
Proof.
  unfold setup_assets, bind, console_print, ret. intros Hrun.
  repeat match type of Hrun with
         | context [match ?x with _ => _ end] => destruct x
         end;
    congruence.
Qed.

(** C10, the code at the failing input: with the episode collections enabled
    and the network down, [setup_assets] ends in the [ConnectionError] that
    the sync lets through, and returns nothing. *)
Theorem setup_assets_lets_sync_exception_through :
  fst (setup_assets Sample.network_down Sample.alice Sample.empty_world)
  = Raise ConnectionError.
Proof. vm_compute. reflexivity. Qed.

(* ===================================================================== *)
(** ** Further properties: paths, names and classification *)
(* ===================================================================== *)



(** X2: the two paths are resolved one by one, each from its own setting:
    the value of [kometa_config] when it is set and not empty, else the
    value of [services.tv_status_tracker] when it is set and not empty, else
    the default. *)
Theorem get_kometa_paths_layers (config : Config) :
  get_kometa_paths config =
  (resolve_path (new_format_of config kc_yaml_output_dir)
                (legacy_of config tv_yaml_output_dir)
                "/kometa/config/overlays",
   resolve_path (new_format_of config kc_collections_dir)
                (legacy_of config tv_collections_dir)
                "/kometa/config/collections").
Proof.
  unfold get_kometa_paths, resolve_path, new_format_of, legacy_of.
  destruct (kometa_config config) as [[y c]|]; simpl;
    destruct (tv_block config) as [[ty tc tf]|]; simpl;
    repeat match goal with
           | |- context [falsy ?o] => destruct (falsy o) eqn:?
           end;
    try reflexivity;
    repeat match goal with
           | H : falsy ?o = true |- _ =>
               destruct o as [s|]; simpl in H;
               [apply String.eqb_eq in H; subst s | clear H]
           end;
    reflexivity.
Qed.

Lemma lower_char_underscore (c : ascii) :
  Ascii.eqb (PyStr.lower_char c) "_" = Ascii.eqb c "_".
Proof. destruct c as [[] [] [] [] [] [] [] []]; reflexivity. Qed.

Lemma lower_contains_underscore (s : string) :
  PyStr.contains_char "_" (PyStr.lower s) = PyStr.contains_char "_" s.
Proof.
  induction s as [|c s IH]; [reflexivity|]. simpl.
  now rewrite lower_char_underscore, IH.
Qed.

(** The episode types that are recognized lead to the four fixed names and
    hold no underscore. *)
Lemma collection_of_fixed (episode_type c : string) :
  collection_of episode_type = Some c ->
  In c FIXED /\ PyStr.contains_char "_" episode_type = false.
Proof.
  unfold collection_of. rewrite <- (lower_contains_underscore episode_type).
  repeat match goal with
         | |- context [String.eqb ?a ?b] =>
             destruct (String.eqb_spec a b) as [->|_]
         end;
    intros [= <-]; (split; [unfold FIXED; simpl; tauto | reflexivity]).
Qed.

Lemma split_once_first (a b : string) :
  PyStr.contains_char "_" a = false ->
  PyStr.split_once "_" (a +:+ String "_" b) = Some (a, b).
Proof.
  induction a as [|c a IH]; intros Ha; [reflexivity|].
  simpl in Ha. apply orb_false_iff in Ha as [Hc Ha].
  change (String c a +:+ String "_" b) with (String c (a +:+ String "_" b)).
  simpl. rewrite Hc, (IH Ha). reflexivity.
Qed.

Lemma split_once_inv (s a b : string) :
  PyStr.split_once "_" s = Some (a, b) ->
  s = a +:+ String "_" b /\ PyStr.contains_char "_" a = false.
Proof.
  revert a. induction s as [|c s IH]; intros a; simpl; [discriminate|].
  destruct (Ascii.eqb_spec c "_") as [->|Hc].
  - intros [= <- <-]. split; reflexivity.
  - destruct (PyStr.split_once "_" s) as [[a' b']|]; [|discriminate].
    intros [= <- <-]. destruct (IH a' eq_refl) as [-> Ha]. split.
    + reflexivity.
    + simpl. rewrite Ha. apply Ascii.eqb_neq in Hc. now rewrite Hc.
Qed.

(** X3: the name of a remote list is cut at its first underscore, and what
    follows is the episode type: a list is classified only when its name has
    exactly one underscore, and then by the part after it. A name with no
    underscore, or with a second one (as in [One_Piece_filler]), goes to no
    collection. *)
Theorem list_collection_one_underscore (tl : trakt_list) (c : string) :
  list_collection tl = Some c <->
  exists a b,
    list_name tl = a +:+ String "_" b /\
    PyStr.contains_char "_" a = false /\
    PyStr.contains_char "_" b = false /\
    collection_of b = Some c.
Proof.
  unfold list_collection, PyStr.split1. split.
  - destruct (PyStr.contains_char "_" (list_name tl)); [|discriminate].
    destruct (PyStr.split_once "_" (list_name tl)) as [[a b]|] eqn:Hsplit;
      [|discriminate].
    intros Hc. apply split_once_inv in Hsplit as [Hname Ha].
    exists a, b. repeat split; try assumption.
    now apply collection_of_fixed in Hc.
  - intros (a & b & -> & Ha & _ & Hc).
    rewrite (split_once_first a b Ha).
    replace (PyStr.contains_char "_" (a +:+ String "_" b)) with true;
      [exact Hc|].
    clear. induction a as [|x a IH]; [reflexivity|].
    change (String x a +:+ String "_" b) with (String x (a +:+ String "_" b)).
    simpl. rewrite <- IH. symmetry. apply orb_true_r.
Qed.

(** X4: a remote list that goes to no collection changes nothing: the
    classification is the one of the answer without it. *)
Theorem unrecognized_list_is_ignored (u : string) (tl : trakt_list)
  (before after : list trakt_list) :
  list_collection tl = None ->
  classify u (before ++ tl :: after) = classify u (before ++ after).
Proof.
  intros Hnone. rewrite !classify_eq. apply map_ext. intros c.
  unfold urls_of. rewrite !List.filter_app. simpl. rewrite Hnone.
  now rewrite bool_decide_eq_false_2 by discriminate.
Qed.

Lemma unrecognized_list_is_ignored_witness :
  classify "alice"
    ([Sample.naruto_filler]
     ++ {| tl_name := Some "One_Piece_filler"; tl_slug := Some "op" |}
     :: [Sample.naruto_manga])
  = classify "alice" ([Sample.naruto_filler] ++ [Sample.naruto_manga]).
Proof.
  apply unrecognized_list_is_ignored. vm_compute. reflexivity.
Defined.

(** X5: every recognized remote list is in one collection and in one only:
    the four lists of URLs together are as long as the list of recognized
    remote lists. *)
Theorem classify_counts_each_list_once (u : string)
  (trakt_lists : list trakt_list) :
  list_sum (map (fun kv => length (snd kv)) (classify u trakt_lists))
  = length (recognized trakt_lists).
Proof.
  rewrite classify_eq. unfold FIXED, urls_of, recognized. simpl.
  rewrite !length_map.
  induction trakt_lists as [|tl l IH]; [reflexivity|]. simpl.
  destruct (list_collection tl) as [c|] eqn:Hc.
  - destruct (list_collection_one_underscore tl c) as [Hto _].
    destruct (Hto Hc) as (a & b & _ & _ & _ & Hof).
    apply collection_of_fixed in Hof as [Hfixed _].
    unfold FIXED in Hfixed. simpl in Hfixed.
    destruct Hfixed as [<- | [<- | [<- | [<- | []]]]]; simpl; lia.
  - rewrite !bool_decide_eq_false_2 by discriminate. exact IH.
Qed.

Lemma existsb_is_str (s : string) (l : list string) :
  existsb (Py.is_str s) (map YStr l) = bool_decide (s ∈ l).
Proof.
  induction l as [|x l IH]; simpl.
  - reflexivity.
  - rewrite IH. destruct (decide (x = s)) as [->|Hne].
    + rewrite bool_decide_eq_true_2 by reflexivity.
      symmetry. apply bool_decide_eq_true_2. left.
    + rewrite (bool_decide_eq_false_2 (x = s)) by exact Hne. simpl.
      apply bool_decide_ext. rewrite elem_of_cons. intuition congruence.
Qed.


(** X26: the episode type is compared without regard to case: two remote
    lists whose names differ only in the case of the letters after the
    underscore go to the same collection. *)
Theorem classification_ignores_case (a b b' : string) (slug slug' : option string) :
  PyStr.contains_char "_" a = false ->
  PyStr.lower b = PyStr.lower b' ->
  list_collection {| tl_name := Some (a +:+ String "_" b); tl_slug := slug |}
  = list_collection {| tl_name := Some (a +:+ String "_" b'); tl_slug := slug' |}.
Proof.
  intros Ha Hb. unfold list_collection, list_name, PyStr.split1. simpl.
  rewrite !(split_once_first a _ Ha).
  assert (Hhas : forall x, PyStr.contains_char "_" (a +:+ String "_" x) = true).
  { intros x. clear. induction a as [|c a IH]; [reflexivity|].
    change (String c a +:+ String "_" x) with (String c (a +:+ String "_" x)).
    simpl. rewrite IH. apply orb_true_r. }
  rewrite !Hhas. unfold collection_of. now rewrite Hb.
Qed.

Lemma classification_ignores_case_witness :
  list_collection {| tl_name := Some ("Naruto" +:+ String "_" "MANGA-Canon");
                     tl_slug := None |}
  = list_collection {| tl_name := Some ("Naruto" +:+ String "_" "manga-canon");
                       tl_slug := Some "naruto-manga-canon" |}.
Proof.
  apply classification_ignores_case; reflexivity.
Defined.

(* ===================================================================== *)
(** ** Further properties: directories and asset copies *)
(* ===================================================================== *)

Lemma upto_last_slash_app (a b : string) :
  PyStr.contains_char "/" b = false ->
  PyStr.upto_last_slash (a +:+ String "/" b) = a +:+ "/".
Proof.
  intros Hb. induction a as [|c a IH].
  - change ("" +:+ String "/" b) with (String "/" b). simpl. now rewrite Hb.
  - change (String c a +:+ String "/" b) with (String c (a +:+ String "/" b)).
    simpl. rewrite IH.
    replace (PyStr.contains_char "/" (a +:+ String "/" b)) with true;
      [reflexivity|].
    clear. induction a as [|x a IH]; [reflexivity|].
    change (String x a +:+ String "/" b) with (String x (a +:+ String "/" b)).
    simpl. rewrite <- IH. symmetry. apply orb_true_r.
Qed.

Lemma all_slashes_app (a : string) :
  a <> "" -> PyStr.ends_with_slash a = false ->
  PyStr.all_slashes (a +:+ "/") = false.
Proof.
  induction a as [|c a IH]; intros Hne Hend; [congruence|].
  change (String c a +:+ "/") with (String c (a +:+ "/")). simpl.
  destruct a as [|d a].
  - simpl in Hend. now rewrite Hend.
  - rewrite IH; [apply andb_false_r | discriminate | exact Hend].
Qed.

Lemma rstrip_slash_app (a : string) :
  PyStr.ends_with_slash a = false -> PyStr.rstrip_slash (a +:+ "/") = a.
Proof.
  induction a as [|c a IH]; intros Hend; [reflexivity|].
  change (String c a +:+ "/") with (String c (a +:+ "/")). simpl.
  destruct a as [|d a].
  - simpl in Hend. change ("" +:+ "/") with "/". simpl. now rewrite Hend.
  - rewrite IH by exact Hend. now rewrite andb_false_r.
Qed.

Lemma contains_no_slash_start (b : string) :
  PyStr.contains_char "/" b = false -> PyStr.starts_with_slash b = false.
Proof.
  destruct b as [|c b]; [reflexivity|]. simpl. intros H.
  now apply orb_false_iff in H as [-> _].
Qed.

Lemma dirname_join (a b : string) :
  a <> "" -> PyStr.ends_with_slash a = false ->
  PyStr.contains_char "/" b = false ->
  PyStr.dirname (PyStr.join a b) = a.
Proof.
  intros Hne Hend Hb. unfold PyStr.join.
  rewrite (contains_no_slash_start b Hb), Hend.
  destruct (String.eqb_spec a "") as [->|_]; [congruence|]. simpl.
  unfold PyStr.dirname.
  change (a +:+ "/" +:+ b) with (a +:+ String "/" b).
  rewrite (upto_last_slash_app a b Hb), (all_slashes_app a Hne Hend).
  destruct (String.eqb_spec (a +:+ "/") "") as [Heq|_].
  - destruct a; discriminate.
  - simpl. now apply rstrip_slash_app.
Qed.

Lemma ends_with_slash_append (a b : string) :
  b <> "" -> PyStr.ends_with_slash (a +:+ b) = PyStr.ends_with_slash b.
Proof.
  intros Hb. induction a as [|c a IH]; [reflexivity|].
  change (String c a +:+ b) with (String c (a +:+ b)).
  destruct (a +:+ b) as [|d r] eqn:Hab.
  - destruct a; [|discriminate]. now destruct b.
  - simpl. simpl in IH. exact IH.
Qed.

Lemma join_is_directory_name (a b : string) :
  b <> "" -> PyStr.starts_with_slash b = false ->
  PyStr.ends_with_slash b = false ->
  PyStr.join a b <> "" /\ PyStr.ends_with_slash (PyStr.join a b) = false.
Proof.
  intros Hb Hrel Hend. destruct (join_relative a b Hrel) as [x ->]. split.
  - destruct x; [exact Hb | discriminate].
  - now rewrite ends_with_slash_append.
Qed.

(** X7: the directory that [copy_asset] makes for a destination is the one
    its caller has prepared: for every configuration, the directory of the
    poster's destination is the assets directory, and the directory of the
    font's destination is the fonts directory ([dirname] undoes [join]). *)
Theorem copy_destination_directory (config : Config) :
  PyStr.dirname (poster_dest_of config) = assets_dir_of config /\
  PyStr.dirname (font_dest_of config) = fonts_dir_of config.
Proof.
  unfold poster_dest_of, font_dest_of. split.
  - assert (H : assets_dir_of config <> "" /\
                PyStr.ends_with_slash (assets_dir_of config) = false).
    { unfold assets_dir_of. now apply join_is_directory_name. }
    now apply dirname_join.
  - assert (H : fonts_dir_of config <> "" /\
                PyStr.ends_with_slash (fonts_dir_of config) = false).
    { unfold fonts_dir_of. now apply join_is_directory_name. }
    now apply dirname_join.
Qed.

Lemma ensure_directory_run (E : env) (d : string) (w : world) :
  exists b w',
    ensure_directory E d w = (Ret b, w') /\
    b = exists_at w d || mkdir_ok E d /\
    no_write w w' /\
    (b = true -> exists_at w' d = true) /\
    (b = false -> w_dirs w' = w_dirs w).
Proof.
  unfold ensure_directory, bind, path_exists, try_except, makedirs, log, ret.
  destruct (exists_at w d) eqn:Hex; simpl.
  - exists true, w. split; [reflexivity|]. split; [reflexivity|].
    split; [split; reflexivity|]. split; [auto | discriminate].
  - destruct (mkdir_ok E d); simpl; eexists _, _; (split; [reflexivity|]);
      (split; [reflexivity|]); (split; [split; reflexivity|]).
    + split; [|discriminate]. intros _. unfold exists_at. simpl.
      rewrite bool_decide_eq_true_2; [reflexivity|].
      rewrite elem_of_union, elem_of_singleton. now left.
    + split; [discriminate | reflexivity].
Qed.

(** X8: [ensure_directory] never raises and writes no file; it returns
    [True] exactly when the path exists already or can be made; and after it
    has returned [True], a further call returns [True] and changes nothing,
    whatever the file system would answer then. *)
Theorem ensure_directory_settles (E E' : env) (d : string) (w : world) :
  exists b w',
    ensure_directory E d w = (Ret b, w') /\
    b = exists_at w d || mkdir_ok E d /\
    w_files w' = w_files w /\ w_writes w' = w_writes w /\
    (b = true -> ensure_directory E' d w' = (Ret true, w')).
Proof.
  destruct (ensure_directory_run E d w) as (b & w' & Hrun & Hb & [Hf Hw] & Hex & _).
  exists b, w'. repeat split; try assumption.
  intros Htrue. specialize (Hex Htrue).
  destruct (ensure_directory_spec E' d w') as (b2 & w2 & Hrun2 & _ & _ & _ & Hsame).
  destruct (Hsame Hex) as [-> ->]. exact Hrun2.
Qed.












(* ===================================================================== *)
(** ** Further properties: the sync *)
(* ===================================================================== *)







(** X15: after a sync that rewrites the file, the [trakt_list] of each of
    the four collections is the list of URLs freshly classified into it,
    whatever the prior file held: a URL whose remote list is gone is gone
    from the file. *)
Theorem rewrite_stores_fresh_lists (E : env) (config : Config) (force : bool)
  (w w' : world) (r : result bool) :
  sync_anime_episode_collections E config force w = (r, w') ->
  In (collections_file_of config) (written_between w w') ->
  exists u trakt_lists doc colls,
    fetched E config u trakt_lists /\
    w_files w' !! collections_file_of config = Some (Doc doc) /\
    collections_of doc = Some colls /\
    forall c, In c FIXED ->
      exists settings,
        entry_of colls c = Some settings /\
        dict_get settings "trakt_list"
        = Some (url_seq (urls_of u trakt_lists c)).
Proof.
  intros Hrun Hin.
  destruct (sync_rewrite_inv _ _ _ _ _ _ Hrun Hin)
    as (u & ls & doc & Hf & Hnew & Hfile & _).
  apply new_collections_inv in Hnew as (s1 & s2 & s3 & s4 & H1 & H2 & H3 & H4 & ->).
  apply collection_settings_inv in H1 as (m1 & -> & H1).
  apply collection_settings_inv in H2 as (m2 & -> & H2).
  apply collection_settings_inv in H3 as (m3 & -> & H3).
  apply collection_settings_inv in H4 as (m4 & -> & H4).
  exists u, ls. eexists. eexists. split; [exact Hf|]. split; [exact Hfile|].
  split; [reflexivity|].
  intros c Hc. unfold FIXED in Hc. simpl in Hc.
  destruct Hc as [<- | [<- | [<- | [<- | []]]]]; eexists;
    (split; [reflexivity | assumption]).
Qed.

Lemma rewrite_stores_fresh_lists_witness :
  exists u trakt_lists doc colls,
    fetched (Sample.online [Sample.naruto_filler]) Sample.alice u trakt_lists /\
    w_files (snd (sync_anime_episode_collections
                    (Sample.online [Sample.naruto_filler]) Sample.alice false
                    Sample.edited_world))
      !! collections_file_of Sample.alice = Some (Doc doc) /\
    collections_of doc = Some colls /\
    forall c, In c FIXED ->
      exists settings,
        entry_of colls c = Some settings /\
        dict_get settings "trakt_list"
        = Some (url_seq (urls_of u trakt_lists c)).
Proof.
  apply (rewrite_stores_fresh_lists
           (Sample.online [Sample.naruto_filler]) Sample.alice false
           Sample.edited_world _ (Ret true)).
  - vm_compute. reflexivity.
  - vm_compute. left. reflexivity.
Defined.

(** X16: in a rewrite, a collection for which the document the sync works
    from has no entry gets the default settings: [sync_mode: sync], the item
    label made from its name, [builder_level: episode] and
    [cache_builders: 6]. This is so for all four when the prior file is
    absent, cannot be read or does not parse: a forced sync over a file that
    does not parse replaces it by the defaults. *)
Theorem rewrite_gives_defaults (E : env) (config : Config) (force : bool)
  (w w' : world) (r : result bool) (prior : list (string * yaml)) (c : string) :
  sync_anime_episode_collections E config force w = (r, w') ->
  In (collections_file_of config) (written_between w w') ->
  collections_of (prior_document E (w_files w) (collections_file_of config))
  = Some prior ->
  dict_get prior c = None ->
  In c FIXED ->
  exists u trakt_lists doc colls,
    fetched E config u trakt_lists /\
    w_files w' !! collections_file_of config = Some (Doc doc) /\
    collections_of doc = Some colls /\
    dict_get colls c
    = Some (YMap [("trakt_list", url_seq (urls_of u trakt_lists c));
                  ("sync_mode", YStr "sync");
                  ("item_label", YStr (item_label c));
                  ("builder_level", YStr "episode");
                  ("cache_builders", YInt 6)]).
Proof.
  intros Hrun Hin Hprior Hnone Hc.
  destruct (sync_rewrite_inv _ _ _ _ _ _ Hrun Hin)
    as (u & ls & doc & Hf & Hnew & Hfile & _).
  apply new_collections_inv in Hnew as (s1 & s2 & s3 & s4 & H1 & H2 & H3 & H4 & ->).
  exists u, ls. eexists. eexists. split; [exact Hf|]. split; [exact Hfile|].
  split; [reflexivity|].
  unfold FIXED in Hc. simpl in Hc.
  destruct Hc as [<- | [<- | [<- | [<- | []]]]].
  - rewrite (collection_settings_default _ _ _ _ Hprior Hnone) in H1.
    injection H1 as <-. reflexivity.
  - rewrite (collection_settings_default _ _ _ _ Hprior Hnone) in H2.
    injection H2 as <-. reflexivity.
  - rewrite (collection_settings_default _ _ _ _ Hprior Hnone) in H3.
    injection H3 as <-. reflexivity.
  - rewrite (collection_settings_default _ _ _ _ Hprior Hnone) in H4.
    injection H4 as <-. reflexivity.
Qed.

Lemma rewrite_gives_defaults_witness :
  exists u trakt_lists doc colls,
    fetched (Sample.online [Sample.naruto_filler]) Sample.alice u trakt_lists /\
    w_files (snd (sync_anime_episode_collections
                    (Sample.online [Sample.naruto_filler]) Sample.alice true
                    Sample.unparsable_world))
      !! collections_file_of Sample.alice = Some (Doc doc) /\
    collections_of doc = Some colls /\
    dict_get colls "Manga Canon"
    = Some (YMap [("trakt_list", url_seq (urls_of u trakt_lists "Manga Canon"));
                  ("sync_mode", YStr "sync");
                  ("item_label", YStr (item_label "Manga Canon"));
                  ("builder_level", YStr "episode");
                  ("cache_builders", YInt 6)]).
Proof.
  apply (rewrite_gives_defaults
           (Sample.online [Sample.naruto_filler]) Sample.alice true
           Sample.unparsable_world _ (Ret true) []).
  - vm_compute. reflexivity.
  - vm_compute. left. reflexivity.
  - vm_compute. reflexivity.
  - reflexivity.
  - simpl. right. left. reflexivity.
Defined.



Lemma detect_loop_raises (pre post : list (string * yaml)) (c : string)
  (data : yaml) (cd : list (string * list string)) (flag : bool) (w : world)
  (e : exn) :
  Forall (fun kv => entry_differs cd kv = Ret false) pre ->
  entry_differs cd (c, data) = Raise e ->
  detect_loop (pre ++ (c, data) :: post) cd flag w = (Raise e, w).
Proof.
  intros Hpre Hc.
  induction Hpre as [|[c0 data0] rest Hhead _ IH].
  - cbn [app]. rewrite detect_loop_cons.
    unfold entry_differs, rbind in Hc. simpl in Hc.
    destruct (Py.get data "trakt_list" (YSeq [])) as [tl|e0];
      [|now injection Hc as ->].
    destruct (Py.set_of tl) as [existing|e0]; [|now injection Hc as ->].
    discriminate.
  - rewrite <- app_comm_cons, detect_loop_cons.
    unfold entry_differs, rbind in Hhead. simpl in Hhead.
    destruct (Py.get data0 "trakt_list" (YSeq [])) as [tl|e0]; [|discriminate].
    destruct (Py.set_of tl) as [existing|e0]; [|discriminate].
    destruct (dict_get cd c0) as [new|]; [|exact IH].
    injection Hhead as ->. exact IH.
Qed.

(** What detection raises, the second half of the sync raises, and nothing
    is written. *)
Lemma merge_detection_raises (E : env) (config : Config) (force : bool)
  (u : string) (trakt_lists : list trakt_list) (w : world) (e : exn) :
  (forall wx,
      fst (detect_changes force
             (prior_document E (w_files w) (collections_file_of config))
             (classify u trakt_lists) wx) = Raise e) ->
  exists w',
    merge_collections E config force u trakt_lists w = (Raise e, w') /\
    no_write w w'.
Proof.
  intros Hdet. unfold merge_collections.
  fold (collections_file_of config). unfold bind at 1.
  destruct (load_existing_spec E (collections_file_of config) w)
    as (w1 & -> & [[Hf1 Hw1] _] & _).
  unfold bind at 1.
  destruct (detect_changes force
              (prior_document E (w_files w) (collections_file_of config))
              (classify u trakt_lists) w1) as [r w2] eqn:Hrun.
  specialize (Hdet w1). rewrite Hrun in Hdet. simpl in Hdet. subst r.
  apply detect_changes_quiet in Hrun as ([[Hf2 Hw2] _] & _).
  exists w2. split; [reflexivity|]. split; congruence.
Qed.

(** X18: with [force_update=False], an entry of the prior file that is not
    a mapping (as [Custom:] with nothing after it), under any name, makes the
    sync raise [AttributeError] when detection reaches it: the sync returns
    no boolean; nothing is written. *)
Theorem malformed_entry_raises (E : env) (config : Config) (w w1 : world)
  (u : string) (trakt_lists : list trakt_list)
  (pre post : list (string * yaml)) (c : string) (data : yaml) :
  fetched E config u trakt_lists ->
  ensure_directory E (snd (get_kometa_paths config)) w = (Ret true, w1) ->
  Py.get (prior_document E (w_files w) (collections_file_of config))
         "collections" (YMap []) = Ret (YMap (pre ++ (c, data) :: post)) ->
  Forall (fun kv => entry_differs (classify u trakt_lists) kv = Ret false) pre ->
  (forall m, data <> YMap m) ->
  exists w',
    sync_anime_episode_collections E config false w
    = (Raise AttributeError, w') /\
    w_files w' = w_files w /\ w_writes w' = w_writes w.
Proof.
  intros Hf Hdir Hget Hpre Hdata.
  rewrite (sync_fetched E config false u trakt_lists w w1 Hf Hdir).
  destruct (ensure_directory_run E (snd (get_kometa_paths config)) w)
    as (ok & w1' & Hdir' & _ & [Hf1 Hw1] & _).
  rewrite Hdir in Hdir'. injection Hdir' as <- <-.
  destruct (merge_detection_raises E config false u trakt_lists w1 AttributeError)
    as (w' & Hrun & [Hf2 Hw2]).
  - intros wx. rewrite Hf1. unfold detect_changes.
    rewrite prior_document_truthy. cbn [negb andb].
    unfold bind at 1. unfold lift at 1. rewrite Hget.
    unfold bind at 1. unfold lift at 1. cbn [Py.items].
    rewrite (detect_loop_raises pre post c data _ false wx AttributeError Hpre);
      [reflexivity|].
    unfold entry_differs. simpl.
    destruct data as [| | | | |m]; try reflexivity. now destruct (Hdata m).
  - exists w'. split; [exact Hrun | split; congruence].
Qed.

Lemma malformed_entry_raises_witness :
  exists w',
    sync_anime_episode_collections (Sample.online [Sample.old_filler])
      Sample.alice false Sample.null_entry_world
    = (Raise AttributeError, w') /\
    w_files w' = w_files Sample.null_entry_world /\
    w_writes w' = w_writes Sample.null_entry_world.
Proof.
  apply (malformed_entry_raises (Sample.online [Sample.old_filler])
           Sample.alice Sample.null_entry_world Sample.null_entry_world
           "alice" [Sample.old_filler] [] [] "Custom" YNull).
  - split; [reflexivity|]. split; [discriminate|].
    exists "token". split; [reflexivity|]. split; [discriminate | reflexivity].
  - vm_compute. reflexivity.
  - vm_compute. reflexivity.
  - constructor.
  - discriminate.
Defined.



(** X20: an answer of the remote service with a status other than 200 makes
    the sync return [False]: the body is not looked at, no file is written,
    and the status is logged as an error. *)
Theorem sync_remote_status (E : env) (config : Config) (force : bool)
  (w w1 : world) (u tok : string) (resp : response) :
  ensure_directory E (snd (get_kometa_paths config)) w = (Ret true, w1) ->
  trakt_username config = Some u -> u <> "" ->
  ensure_trakt_auth E = Ret (Some tok) -> tok <> "" ->
  requests_get E (lists_url_of u) tok = Ret resp ->
  status_code resp <> 200 ->
  exists w',
    sync_anime_episode_collections E config force w = (Ret false, w') /\
    w_files w' = w_files w /\ w_writes w' = w_writes w /\
    w_log w' = w_log w1 ++ [(ERROR, "Failed to get Trakt lists. Status: "
                                    +:+ pretty (status_code resp))].
Proof.
  intros Hdir Hu Hune Hauth Htok Hget Hstatus.
  destruct (ensure_directory_run E (snd (get_kometa_paths config)) w)
    as (ok & w1' & Hdir' & _ & [Hf1 Hw1] & _).
  rewrite Hdir in Hdir'. injection Hdir' as <- <-.
  unfold sync_anime_episode_collections. unfold bind at 1. rewrite Hdir.
  cbv beta iota delta [negb]. rewrite Hu, (falsy_some u Hune).
  rewrite (or_default_some u "" Hune).
  unfold bind at 1. unfold lift at 1. rewrite Hauth.
  rewrite (falsy_some tok Htok), (or_default_some tok "" Htok).
  unfold bind at 1. unfold lift at 1. rewrite Hget.
  destruct (Z.eqb_spec (status_code resp) 200) as [Heq|_]; [contradiction|].
  cbn [negb]. unfold bind, log, ret. eexists. split; [reflexivity|]. simpl.
  repeat split; assumption.
Qed.

Lemma sync_remote_status_witness :
  exists w',
    sync_anime_episode_collections Sample.unauthorized Sample.alice true
      Sample.edited_world = (Ret false, w') /\
    w_files w' = w_files Sample.edited_world /\
    w_writes w' = w_writes Sample.edited_world /\
    w_log w' = w_log Sample.edited_world
               ++ [(ERROR, "Failed to get Trakt lists. Status: "
                           +:+ pretty 401%Z)].
Proof.
  apply (sync_remote_status Sample.unauthorized Sample.alice true
           Sample.edited_world Sample.edited_world "alice" "token"
           {| status_code := 401; json_body := None |}).
  - vm_compute. reflexivity.
  - reflexivity.
  - discriminate.
  - reflexivity.
  - discriminate.
  - reflexivity.
  - discriminate.
Defined.

Lemma collection_settings_cases (existing : yaml)
  (colls : list (string * yaml)) (c : string) (urls : list string) :
  collections_of existing = Some colls ->
  collection_settings existing c urls =
  match dict_get colls c with
  | None => Ret (default_settings c urls)
  | Some (YMap m) => Ret (YMap (dict_set m "trakt_list" (url_seq urls)))
  | Some (YSeq _) => Raise TypeError
  | Some _ => Raise AttributeError
  end.
Proof.
  intros Hcolls.
  destruct (dict_get colls c) as [v|] eqn:Hc.
  2:{ now apply (collection_settings_default _ colls). }
  destruct v as [| | | | |m];
    try (apply (collection_settings_existing _ colls);
         [exact Hcolls | unfold entry_of; now rewrite Hc]);
    unfold collections_of in Hcolls;
    (destruct existing as [| | | | |top]; try discriminate);
    (destruct (dict_get top "collections") as [[| | | | |colls']|] eqn:Htop;
       try discriminate);
    injection Hcolls as ->;
    unfold collection_settings, has_existing, rbind; simpl;
    (destruct top as [|kv top]; [discriminate|]);
    unfold dict_has; simpl in Htop |- *; rewrite Htop; simpl;
    unfold dict_has; rewrite Hc; reflexivity.
Qed.

(** X21: in a forced sync, an entry of the prior file under one of the four
    fixed names that is not a mapping makes the sync raise ([TypeError] for a
    sequence, [AttributeError] for a scalar or an empty value, or the
    exception of an earlier such entry): the sync returns no boolean and
    writes nothing. *)
Theorem malformed_fixed_entry_raises (E : env) (config : Config)
  (w w1 : world) (u : string) (trakt_lists : list trakt_list)
  (prior : list (string * yaml)) (c : string) (v : yaml) :
  fetched E config u trakt_lists ->
  ensure_directory E (snd (get_kometa_paths config)) w = (Ret true, w1) ->
  collections_of (prior_document E (w_files w) (collections_file_of config))
  = Some prior ->
  In c FIXED ->
  dict_get prior c = Some v ->
  (forall m, v <> YMap m) ->
  exists e w',
    sync_anime_episode_collections E config true w = (Raise e, w') /\
    (e = AttributeError \/ e = TypeError) /\
    w_files w' = w_files w /\ w_writes w' = w_writes w.
Proof.
  intros Hf Hdir Hprior Hc Hv Hnot.
  rewrite (sync_fetched E config true u trakt_lists w w1 Hf Hdir).
  destruct (ensure_directory_run E (snd (get_kometa_paths config)) w)
    as (ok & w1' & Hdir' & _ & [Hf1 Hw1] & _).
  rewrite Hdir in Hdir'. injection Hdir' as <- <-.
  assert (Hraise : exists e,
             new_collections
               (prior_document E (w_files w) (collections_file_of config))
               (classify u trakt_lists) = Raise e /\
             (e = AttributeError \/ e = TypeError)).
  { assert (Hcases : forall c' urls,
               (exists s, collection_settings
                            (prior_document E (w_files w)
                               (collections_file_of config)) c' urls = Ret s) \/
               collection_settings
                 (prior_document E (w_files w) (collections_file_of config))
                 c' urls = Raise AttributeError \/
               collection_settings
                 (prior_document E (w_files w) (collections_file_of config))
                 c' urls = Raise TypeError).
    { intros c' urls. rewrite (collection_settings_cases _ _ c' urls Hprior).
      destruct (dict_get prior c') as [[| | | | |m]|]; eauto. }
    assert (Hbad : forall urls,
               collection_settings
                 (prior_document E (w_files w) (collections_file_of config))
                 c urls = Raise AttributeError \/
               collection_settings
                 (prior_document E (w_files w) (collections_file_of config))
                 c urls = Raise TypeError).
    { intros urls. rewrite (collection_settings_cases _ _ c urls Hprior), Hv.
      destruct v as [| | | | |m]; auto. now destruct (Hnot m). }
    rewrite classify_eq. unfold new_collections, FIXED. cbn [map build_loop].
    unfold FIXED in Hc. simpl in Hc.
    destruct (Hcases "Fillers" (urls_of u trakt_lists "Fillers"))
      as [[s1 H1] | [H1 | H1]]; rewrite H1; cbn [rbind]; eauto.
    destruct (Hcases "Manga Canon" (urls_of u trakt_lists "Manga Canon"))
      as [[s2 H2] | [H2 | H2]]; rewrite H2; cbn [rbind]; eauto.
    destruct (Hcases "Anime Canon" (urls_of u trakt_lists "Anime Canon"))
      as [[s3 H3] | [H3 | H3]]; rewrite H3; cbn [rbind]; eauto.
    destruct (Hcases "Mixed Canon/Filler"
                (urls_of u trakt_lists "Mixed Canon/Filler"))
      as [[s4 H4] | [H4 | H4]]; rewrite H4; cbn [rbind]; eauto.
    exfalso.
    destruct Hc as [<- | [<- | [<- | [<- | []]]]].
    - destruct (Hbad (urls_of u trakt_lists "Fillers")); congruence.
    - destruct (Hbad (urls_of u trakt_lists "Manga Canon")); congruence.
    - destruct (Hbad (urls_of u trakt_lists "Anime Canon")); congruence.
    - destruct (Hbad (urls_of u trakt_lists "Mixed Canon/Filler")); congruence. }
  destruct Hraise as (e & Hnew & He).
  unfold merge_collections. fold (collections_file_of config).
  unfold bind at 1.
  destruct (load_existing_spec E (collections_file_of config) w1)
    as (w2 & -> & [[Hf2 Hw2] _] & _).
  unfold bind at 1. unfold detect_changes. cbn [negb andb]. unfold ret at 1.
  unfold bind at 1. unfold lift at 1. rewrite Hf1, Hnew.
  exists e, w2. split; [reflexivity|]. split; [exact He|]. split; congruence.
Qed.

Lemma malformed_fixed_entry_raises_witness :
  exists e w',
    sync_anime_episode_collections (Sample.online []) Sample.alice true
      Sample.list_entry_world = (Raise e, w') /\
    (e = AttributeError \/ e = TypeError) /\
    w_files w' = w_files Sample.list_entry_world /\
    w_writes w' = w_writes Sample.list_entry_world.
Proof.
  apply (malformed_fixed_entry_raises (Sample.online []) Sample.alice
           Sample.list_entry_world Sample.list_entry_world "alice" []
           [("Anime Canon", YSeq [YStr "https://trakt.tv/users/alice/lists/x"])]
           "Anime Canon"
           (YSeq [YStr "https://trakt.tv/users/alice/lists/x"])).
  - split; [reflexivity|]. split; [discriminate|].
    exists "token". split; [reflexivity|]. split; [discriminate | reflexivity].
  - vm_compute. reflexivity.
  - vm_compute. reflexivity.
  - simpl. right. right. left. reflexivity.
  - reflexivity.
  - discriminate.
Defined.

Lemma urls_of_members (u : string) (l l' : list trakt_list) (c : string) :
  (forall tl, In tl l <-> In tl l') ->
  forall s, In s (urls_of u l c) <-> In s (urls_of u l' c).
Proof.
  intros Hsame s. unfold urls_of. rewrite !in_map_iff.
  split; intros (tl & <- & Hin); exists tl; (split; [reflexivity|]);
    apply List.filter_In in Hin as [Hin Hc]; apply List.filter_In;
    (split; [now apply Hsame | exact Hc]).
Qed.

Lemma set_eq_iff_members (stored fresh : list string) :
  Py.set_eq (map YStr stored) fresh = true <->
  (forall s, In s stored <-> In s fresh).
Proof.
  unfold Py.set_eq. rewrite andb_true_iff, !forallb_forall. split.
  - intros [Hsub Hsup] s. split; intros Hin.
    + specialize (Hsub (YStr s) (in_map YStr _ _ Hin)). simpl in Hsub.
      apply bool_decide_eq_true in Hsub. now apply list_elem_of_In.
    + specialize (Hsup s Hin). rewrite existsb_is_str in Hsup.
      apply bool_decide_eq_true in Hsup. now apply list_elem_of_In.
  - intros Hsame. split.
    + intros y Hy. apply in_map_iff in Hy as (s & <- & Hs). simpl.
      apply bool_decide_eq_true_2, list_elem_of_In, Hsame, Hs.
    + intros s Hs. rewrite existsb_is_str.
      apply bool_decide_eq_true_2, list_elem_of_In, Hsame, Hs.
Qed.


Lemma detect_loop_members (c : string) (m : list (string * yaml))
  (stored fresh : list string) (rest : list (string * yaml))
  (cd : list (string * list string)) (flag : bool) (w : world) :
  dict_get m "trakt_list" = Some (url_seq stored) ->
  dict_get cd c = Some fresh ->
  (forall s, In s stored <-> In s fresh) ->
  detect_loop ((c, YMap m) :: rest) cd flag w = detect_loop rest cd flag w.
Proof.
  intros Hm Hc Hsame. rewrite detect_loop_cons. cbn [Py.get]. rewrite Hm.
  rewrite set_of_url_seq, Hc.
  now rewrite (proj2 (set_eq_iff_members stored fresh) Hsame).
Qed.

(** X22: after a sync that wrote the collections file, an unforced sync
    whose remote answer holds the same records, in whatever order and however
    often repeated, returns [True] and writes nothing. *)
Theorem reordered_answer_is_no_change (E E2 : env) (config : Config)
  (force : bool) (w w1 : world) (u : string)
  (trakt_lists trakt_lists2 : list trakt_list) :
  sync_anime_episode_collections E config force w = (Ret true, w1) ->
  In (collections_file_of config) (written_between w w1) ->
  fetched E config u trakt_lists ->
  fetched E2 config u trakt_lists2 ->
  (forall tl, In tl trakt_lists <-> In tl trakt_lists2) ->
  exists w2,
    sync_anime_episode_collections E2 config false w1 = (Ret true, w2) /\
    w_writes w2 = w_writes w1 /\ w_files w2 = w_files w1.
Proof.
  intros Hrun Hin Hf Hf2 Hsame.
  destruct (sync_rewrite_inv _ _ _ _ _ _ Hrun Hin)
    as (u' & ls & doc & Hf' & Hnew & Hfile & _ & Hex & _).
  assert (Hu : u' = u /\ ls = trakt_lists).
  { destruct Hf as (Hu & _ & tok & Hauth & _ & Hget).
    destruct Hf' as (Hu' & _ & tok' & Hauth' & _ & Hget').
    rewrite Hu in Hu'. injection Hu' as <-.
    rewrite Hauth in Hauth'. injection Hauth' as <-.
    rewrite Hget in Hget'. now injection Hget' as <-. }
  destruct Hu as [-> ->].
  destruct (ensure_directory_spec E2 (snd (get_kometa_paths config)) w1)
    as (ok & w1' & Hdir & _ & _ & _ & Hkeep).
  destruct (Hkeep Hex) as [-> ->].
  rewrite (sync_fetched E2 config false u trakt_lists2 w1 w1 Hf2 Hdir).
  destruct (merge_no_change E2 config u trakt_lists2 w1) as (w2 & Hmerge & Hf3 & Hw3).
  - intros wx. unfold prior_document. rewrite Hfile.
    apply new_collections_inv in Hnew
      as (s1 & s2 & s3 & s4 & H1 & H2 & H3 & H4 & ->).
    destruct (read_ok E2 (collections_file_of config)); [|reflexivity].
    apply collection_settings_inv in H1 as (m1 & -> & H1).
    apply collection_settings_inv in H2 as (m2 & -> & H2).
    apply collection_settings_inv in H3 as (m3 & -> & H3).
    apply collection_settings_inv in H4 as (m4 & -> & H4).
    unfold detect_changes. cbn [negb andb Py.truthy].
    unfold bind at 1. unfold lift at 1. cbn [Py.get dict_get].
    rewrite decide_True by reflexivity.
    unfold bind at 1. unfold lift at 1. cbn [Py.items].
    rewrite (detect_loop_members _ _ _ (urls_of u trakt_lists2 _) _ _ _ _ H1)
      by first [ rewrite classify_get; reflexivity
               | apply urls_of_members; exact Hsame ].
    rewrite (detect_loop_members _ _ _ (urls_of u trakt_lists2 _) _ _ _ _ H2)
      by first [ rewrite classify_get; reflexivity
               | apply urls_of_members; exact Hsame ].
    rewrite (detect_loop_members _ _ _ (urls_of u trakt_lists2 _) _ _ _ _ H3)
      by first [ rewrite classify_get; reflexivity
               | apply urls_of_members; exact Hsame ].
    rewrite (detect_loop_members _ _ _ (urls_of u trakt_lists2 _) _ _ _ _ H4)
      by first [ rewrite classify_get; reflexivity
               | apply urls_of_members; exact Hsame ].
    reflexivity.
  - exists w2. split; [exact Hmerge | split; assumption].
Qed.

Lemma reordered_answer_is_no_change_witness :
  exists w2,
    sync_anime_episode_collections
      (Sample.online [Sample.naruto_manga; Sample.naruto_filler;
                      Sample.naruto_manga])
      Sample.alice false
      (snd (sync_anime_episode_collections
              (Sample.online [Sample.naruto_filler; Sample.naruto_manga])
              Sample.alice true Sample.empty_world))
    = (Ret true, w2) /\
    w_writes w2
    = w_writes (snd (sync_anime_episode_collections
                       (Sample.online [Sample.naruto_filler; Sample.naruto_manga])
                       Sample.alice true Sample.empty_world)) /\
    w_files w2
    = w_files (snd (sync_anime_episode_collections
                      (Sample.online [Sample.naruto_filler; Sample.naruto_manga])
                      Sample.alice true Sample.empty_world)).
Proof.
  apply (reordered_answer_is_no_change
           (Sample.online [Sample.naruto_filler; Sample.naruto_manga])
           (Sample.online [Sample.naruto_manga; Sample.naruto_filler;
                           Sample.naruto_manga])
           Sample.alice true Sample.empty_world _ "alice"
           [Sample.naruto_filler; Sample.naruto_manga]
           [Sample.naruto_manga; Sample.naruto_filler; Sample.naruto_manga]).
  - vm_compute. reflexivity.
  - vm_compute. left. reflexivity.
  - split; [reflexivity|]. split; [discriminate|].
    exists "token". split; [reflexivity|]. split; [discriminate | reflexivity].
  - split; [reflexivity|]. split; [discriminate|].
    exists "token". split; [reflexivity|]. split; [discriminate | reflexivity].
  - intros tl. simpl. tauto.
Defined.

Lemma dict_keys_set {V : Type} (d : list (string * V)) (k : string) (v : V) :
  dict_keys (dict_set d k v)
  = if dict_has d k then dict_keys d else dict_keys d ++ [k].
Proof.
  unfold dict_has. induction d as [|[k' v'] d IH]; [reflexivity|]. simpl.
  destruct (decide (k' = k)) as [->|Hne]; [reflexivity|]. simpl.
  rewrite IH. now destruct (dict_get d k).
Qed.

(** X27: in a rewrite, the settings of an entry that the prior file has
    under one of the four fixed names keep their keys in the order of the
    prior file; [trakt_list] stays where it was, and goes last when the prior
    entry had none. *)
Theorem rewrite_keeps_key_order (E : env) (config : Config) (force : bool)
  (w w' : world) (r : result bool) (prior : yaml)
  (colls old : list (string * yaml)) (c : string) :
  sync_anime_episode_collections E config force w = (r, w') ->
  In (collections_file_of config) (written_between w w') ->
  read_ok E (collections_file_of config) = true ->
  w_files w !! collections_file_of config = Some (Doc prior) ->
  collections_of prior = Some colls ->
  entry_of colls c = Some old ->
  In c FIXED ->
  exists doc colls' new,
    w_files w' !! collections_file_of config = Some (Doc doc) /\
    collections_of doc = Some colls' /\
    entry_of colls' c = Some new /\
    dict_keys new
    = if dict_has old "trakt_list" then dict_keys old
      else dict_keys old ++ ["trakt_list"].
Proof.
  intros Hrun Hin Hread Hprior Hcolls Hold Hc.
  destruct (sync_rewrite_inv _ _ _ _ _ _ Hrun Hin)
    as (u & ls & doc & Hf & Hnew & Hfile & _).
  assert (Hdoc : prior_document E (w_files w) (collections_file_of config)
                 = prior).
  { unfold prior_document. rewrite Hread, Hprior.
    unfold collections_of in Hcolls.
    destruct prior as [| | | | |[|kv top]]; try discriminate. reflexivity. }
  rewrite Hdoc in Hnew.
  apply new_collections_inv in Hnew as (s1 & s2 & s3 & s4 & H1 & H2 & H3 & H4 & ->).
  eexists. eexists.
  exists (dict_set old "trakt_list" (url_seq (urls_of u ls c))).
  split; [exact Hfile|]. split; [reflexivity|].
  split; [|apply dict_keys_set].
  unfold FIXED in Hc. simpl in Hc.
  destruct Hc as [<- | [<- | [<- | [<- | []]]]].
  - rewrite (collection_settings_existing _ _ _ _ _ Hcolls Hold) in H1.
    injection H1 as <-. reflexivity.
  - rewrite (collection_settings_existing _ _ _ _ _ Hcolls Hold) in H2.
    injection H2 as <-. reflexivity.
  - rewrite (collection_settings_existing _ _ _ _ _ Hcolls Hold) in H3.
    injection H3 as <-. reflexivity.
  - rewrite (collection_settings_existing _ _ _ _ _ Hcolls Hold) in H4.
    injection H4 as <-. reflexivity.
Qed.

Lemma rewrite_keeps_key_order_witness :
  exists doc colls' new,
    w_files (snd (sync_anime_episode_collections
                    (Sample.online [Sample.naruto_filler]) Sample.alice false
                    Sample.edited_world))
      !! collections_file_of Sample.alice = Some (Doc doc) /\
    collections_of doc = Some colls' /\
    entry_of colls' "Fillers" = Some new /\
    dict_keys new
    = if dict_has [("trakt_list",
                    YSeq [YStr "https://trakt.tv/users/alice/lists/old"]);
                   ("sync_mode", YStr "append");
                   ("item_label", YStr "Fillers")] "trakt_list"
      then dict_keys [("trakt_list",
                       YSeq [YStr "https://trakt.tv/users/alice/lists/old"]);
                      ("sync_mode", YStr "append");
                      ("item_label", YStr "Fillers")]
      else dict_keys [("trakt_list",
                       YSeq [YStr "https://trakt.tv/users/alice/lists/old"]);
                      ("sync_mode", YStr "append");
                      ("item_label", YStr "Fillers")] ++ ["trakt_list"].
Proof.
  apply (rewrite_keeps_key_order
           (Sample.online [Sample.naruto_filler]) Sample.alice false
           Sample.edited_world _ (Ret true)
           (YMap [("collections", YMap Sample.edited_collections)])
           Sample.edited_collections).
  - vm_compute. reflexivity.
  - vm_compute. left. reflexivity.
  - reflexivity.
  - vm_compute. reflexivity.
  - reflexivity.
  - reflexivity.
  - simpl. left. reflexivity.
Defined.

(* ===================================================================== *)
(** ** Further properties: the overlay emitter and [setup_assets] *)
(* ===================================================================== *)

Lemma overlay_loop_stays_false (E : env) (dir : string)
  (settings : list (string * yaml)) (configs : list (string * overlay_values)) :
  forall w b w',
    overlay_loop E dir settings configs false w = (Ret b, w') -> b = false.
Proof.
  induction configs as [|[filename values] rest IH]; intros w b w'; simpl.
  - unfold ret. now intros [= <-].
  - unfold bind at 1. unfold path_exists at 1.
    destruct (exists_at w (PyStr.join dir filename)); [apply IH|].
    unfold bind at 1. unfold try_except, bind, dump_file, log, ret.
    destruct (write_ok E (PyStr.join dir filename)); apply IH.
Qed.

Lemma overlay_loop_all_exist (E : env) (dir : string)
  (settings : list (string * yaml)) (configs : list (string * overlay_values)) :
  forall success w w',
    overlay_loop E dir settings configs success w = (Ret true, w') ->
    forall fv, In fv configs -> exists_at w' (PyStr.join dir (fst fv)) = true.
Proof.
  induction configs as [|[filename values] rest IH];
    intros success w w' Hrun fv Hin; [destruct Hin|].
  simpl in Hrun. unfold bind at 1 in Hrun. unfold path_exists at 1 in Hrun.
  destruct (exists_at w (PyStr.join dir filename)) eqn:Hex.
  - destruct Hin as [<- | Hin]; [|now apply (IH _ _ _ Hrun)].
    destruct (overlay_loop_spec E dir settings rest success w)
      as (b & w2 & Hrun2 & Hg).
    rewrite Hrun in Hrun2. injection Hrun2 as <- <-.
    now apply (exists_at_grows w w').
  - unfold bind at 1 in Hrun.
    unfold try_except, bind, dump_file, log, ret in Hrun.
    destruct (write_ok E (PyStr.join dir filename)).
    + destruct Hin as [<- | Hin]; [|now apply (IH _ _ _ Hrun)].
      match type of Hrun with
      | overlay_loop _ _ _ _ _ ?w1 = _ =>
          destruct (overlay_loop_spec E dir settings rest success w1)
            as (b & w2 & Hrun2 & Hg)
      end.
      rewrite Hrun in Hrun2. injection Hrun2 as <- <-.
      apply (exists_at_grows _ _ _ Hg). unfold exists_at, is_file. simpl.
      rewrite lookup_insert_eq. apply orb_true_r.
    + simpl in Hrun. now apply overlay_loop_stays_false in Hrun.
Qed.

Lemma overlay_loop_skips_all (E : env) (dir : string)
  (settings : list (string * yaml)) (configs : list (string * overlay_values))
  (success : bool) (w : world) :
  (forall fv, In fv configs -> exists_at w (PyStr.join dir (fst fv)) = true) ->
  overlay_loop E dir settings configs success w = (Ret success, w).
Proof.
  induction configs as [|[filename values] rest IH]; intros Hall; [reflexivity|].
  simpl. unfold bind at 1. unfold path_exists at 1.
  pose proof (Hall (filename, values) (or_introl eq_refl)) as Hhead.
  simpl in Hhead. rewrite Hhead.
  apply IH. intros fv Hin. apply Hall. now right.
Qed.

(** X23: when the overlay emitter returns [True], the four overlay files
    exist; and a further call, whatever the file system would answer then,
    returns [True] and changes nothing: the files are created once. *)
Theorem overlays_created_once (E E' : env) (config : Config) (w w' : world) :
  create_anime_overlay_files E config w = (Ret true, w') ->
  (forall p, In p (overlay_files_of config) -> exists_at w' p = true) /\
  create_anime_overlay_files E' config w' = (Ret true, w').
Proof.
  intros Hrun.
  assert (Hall : forall fv, In fv overlay_configs ->
            exists_at w' (PyStr.join (fst (get_kometa_paths config)) (fst fv))
            = true).
  { unfold create_anime_overlay_files in Hrun. unfold bind at 1 in Hrun.
    destruct (ensure_directory_run E (fst (get_kometa_paths config)) w)
      as (ok & w1 & Hdir & _).
    rewrite Hdir in Hrun. destruct ok; cbv beta iota delta [negb] in Hrun;
      [|discriminate].
    now apply (overlay_loop_all_exist _ _ _ _ _ _ _ Hrun). }
  assert (Hdir : exists_at w' (fst (get_kometa_paths config)) = true).
  { destruct (ensure_directory_spec E (fst (get_kometa_paths config)) w)
      as (ok & w1 & Hdir & _ & _ & Hex & _).
    unfold create_anime_overlay_files in Hrun. unfold bind at 1 in Hrun.
    rewrite Hdir in Hrun. destruct ok; cbv beta iota delta [negb] in Hrun;
      [|discriminate].
    match type of Hrun with
    | overlay_loop _ ?d ?s ?c _ _ = _ =>
        destruct (overlay_loop_spec E d s c true w1) as (b & w2 & Hrun2 & Hg)
    end.
    rewrite Hrun in Hrun2. injection Hrun2 as <- <-.
    now apply (exists_at_grows w1 w'); [|apply Hex]. }
  split.
  - intros p Hp. unfold overlay_files_of in Hp.
    apply in_map_iff in Hp as (fv & <- & Hin). now apply Hall.
  - unfold create_anime_overlay_files. unfold bind at 1.
    destruct (ensure_directory_spec E' (fst (get_kometa_paths config)) w')
      as (ok & w1 & Hdir' & _ & _ & _ & Hkeep).
    destruct (Hkeep Hdir) as [-> ->]. rewrite Hdir'.
    cbv beta iota delta [negb]. now apply overlay_loop_skips_all.
Qed.

Lemma overlays_created_once_witness :
  (forall p, In p (overlay_files_of Sample.alice) ->
     exists_at (snd (create_anime_overlay_files (Sample.online [])
                       Sample.alice Sample.overlay_world)) p = true) /\
  create_anime_overlay_files Sample.read_only Sample.alice
    (snd (create_anime_overlay_files (Sample.online []) Sample.alice
            Sample.overlay_world))
  = (Ret true,
     snd (create_anime_overlay_files (Sample.online []) Sample.alice
            Sample.overlay_world)).
Proof.
  apply (overlays_created_once (Sample.online []) Sample.read_only
           Sample.alice Sample.overlay_world).
  vm_compute. reflexivity.
Defined.






